(** * NFL overtime simulation: a model of [NFLOvertimeSim.py]

    The development embeds the classes [FootballTeam] and [FootballGame]
    of [NFLOvertimeSim.py] and proves properties of the drive state
    machine, the fourth-down policy, the possession transition and the
    game loop.

    Conventions of the embedding.
    - Python numbers of type [int | float] (yards, field positions,
      probabilities) are rationals [Q]; the decimal literals of the source
      ([0.90], [.55], ...) are read as the rationals they denote.  Python
      [int] counters (score, downs) are [Z].  Arithmetic is exact: rounding
      of floats is not modelled, and a number is a plain Python number (an
      operation between a tuple and a number is a [TypeError]).
    - The three calls into [numpy.random] ([triangular], [uniform],
      [normal]) are parameters of the model: a random source is a state
      type [G] with one sampling function per distribution, each returning
      the draw and the next state.
    - A Python exception is a value [Raise e]; a [while] loop is a function
      with fuel that answers [Timeout] when the fuel does not suffice.
    - The attribute [first_down_yards_needed] holds either a number or a
      tuple, as in the source, so it has the sum type [pynum].
    - A play record (the dict built by [get_play_conditions_dict] and
      completed by the play functions) is the record [Play.t]; keys that a
      dict may lack are optional fields.  A pandas DataFrame of plays is
      the list of its rows. *)

From Stdlib Require Import QArith Qround ZArith Lia Lqa.
From stdpp Require Import gmap strings list.

Local Open Scope Q_scope.

(** ** Python values, exceptions, results *)

Inductive exn := TypeError | IndexError | AttributeError | ValueError.

Inductive res (A : Type) : Type :=
| Ok (a : A)
| Raise (e : exn).
Arguments Ok {A} a.
Arguments Raise {A} e.

Inductive outcome (A : Type) : Type :=
| Done (a : A)
| Raised (e : exn)
| Timeout.
Arguments Done {A} a.
Arguments Raised {A} e.
Arguments Timeout {A}.

#[export] Instance res_bind : MBind res := fun A B k m =>
  match m with
  | Ok a => k a
  | Raise e => Raise e
  end.

#[export] Instance out_bind : MBind outcome := fun A B k m =>
  match m with
  | Done a => k a
  | Raised e => Raised e
  | Timeout => Timeout
  end.

Definition lift {A} (m : res A) : outcome A :=
  match m with
  | Ok a => Done a
  | Raise e => Raised e
  end.

(** A value of [first_down_yards_needed]: a number, or the tuple that the
    constructor stores. *)
Inductive pynum :=
| Num (q : Q)
| Tup (l : list Q).

(** The values stored in the [game_data] dict. *)
Inductive pyval :=
| VStr (s : string)
| VInt (z : Z)
| VFloat (q : Q)
| VBool (b : bool)
| VNone.

(** Objects that occur as the operand of [not]: a boolean, or a bound
    method, which Python counts as true. *)
Inductive pyobj :=
| PyBool (b : bool)
| PyBoundMethod (name : string).

Definition truthy (o : pyobj) : bool :=
  match o with
  | PyBool b => b
  | PyBoundMethod _ => true
  end.

(** Comparisons on rationals as booleans. *)
Definition Qlt_bool (x y : Q) : bool := negb (Qle_bool y x).

(** ** Play records *)

Module Play.
Record t := mk {
  field_position : Q;
  down : Z;
  yards_to_first_down : pynum;
  play_type : option string;
  yards_gained : option Q;
  points_from_play : option Z;
  punt_distance : option Q;
  opponent_position : option Q;
  made_kick : option bool
}.

Definition set_yards_gained (v : Q) (p : t) : t :=
  mk (field_position p) (down p) (yards_to_first_down p) (play_type p)
     (Some v) (points_from_play p) (punt_distance p)
     (opponent_position p) (made_kick p).

Definition set_points_from_play (v : Z) (p : t) : t :=
  mk (field_position p) (down p) (yards_to_first_down p) (play_type p)
     (yards_gained p) (Some v) (punt_distance p)
     (opponent_position p) (made_kick p).

Definition set_punt_distance (v : Q) (p : t) : t :=
  mk (field_position p) (down p) (yards_to_first_down p) (play_type p)
     (yards_gained p) (points_from_play p) (Some v)
     (opponent_position p) (made_kick p).

Definition set_opponent_position (v : Q) (p : t) : t :=
  mk (field_position p) (down p) (yards_to_first_down p) (play_type p)
     (yards_gained p) (points_from_play p) (punt_distance p)
     (Some v) (made_kick p).

Definition set_made_kick (v : bool) (p : t) : t :=
  mk (field_position p) (down p) (yards_to_first_down p) (play_type p)
     (yards_gained p) (points_from_play p) (punt_distance p)
     (opponent_position p) (Some v).
End Play.

(** A DataFrame built from a list of play dicts: one row per play. *)
Abbreviation DataFrame := (list Play.t).

(** Attribute access on a row.  A row built by one of the play functions
    always carries the key it is asked for (lemmas [run_play_keys],
    [punt_keys], [kick_field_goal_keys] below); for a row without the key
    the access is an [AttributeError]. *)
Definition attr {A} (o : option A) : res A :=
  match o with
  | Some a => Ok a
  | None => Raise AttributeError
  end.

(** ** Teams *)

Record FootballTeam := mkTeam {
  name : string;
  has_completed_a_posession : bool;
  min_yards : Q;
  exp_yards : Q;
  max_yards : Q;
  punt_distance : Q;
  punt_stdv : Q;
  fourth_down_yard_thresh : Q;
  fourth_down_position_thresh : Q;
  two_point_conversion_rate : Q;
  go_for_two : bool;
  need_touchdown : bool;
  need_score : bool;
  downs_completed : Z;
  field_position : Q;
  score : Z;
  first_down_yards_needed : pynum;
  had_ball_first : option bool;
  has_completed_a_possession : bool;
  drive_data : list DataFrame
}.

(** [FootballTeam.__init__]: every argument is stored as given; the body
    has no check and no [raise]. *)
Definition FootballTeam_init (name : string)
    (has_completed_a_posession : bool)
    (min_yards exp_yards max_yards punt_distance punt_stdv : Q)
    (fourth_down_yard_thresh fourth_down_position_thresh : Q)
    (two_point_conversion_rate : Q)
    (go_for_two need_touchdown need_score : bool) : res FootballTeam :=
  Ok {| name := name;
        has_completed_a_posession := has_completed_a_posession;
        min_yards := min_yards;
        exp_yards := exp_yards;
        max_yards := max_yards;
        punt_distance := punt_distance;
        punt_stdv := punt_stdv;
        fourth_down_yard_thresh := fourth_down_yard_thresh;
        fourth_down_position_thresh := fourth_down_position_thresh;
        two_point_conversion_rate := two_point_conversion_rate;
        go_for_two := go_for_two;
        need_touchdown := need_touchdown;
        need_score := need_score;
        downs_completed := 0;
        field_position := 25;
        score := 0;
        first_down_yards_needed := Tup [10];
        had_ball_first := None;
        has_completed_a_possession := false;
        drive_data := [] |}.

(** The constructor called with the keyword defaults of the source;
    [go_for_two] is the one option the repository's callers set. *)
Definition FootballTeam_default (name : string) (go_for_two : bool)
  : res FootballTeam :=
  FootballTeam_init name false (-15) 6 25 45 4 2 45 (1 # 2) go_for_two
                    false false.

(** Attribute assignment [self.f = v], one function per attribute that the
    code assigns after construction. *)
Definition with_downs_completed (v : Z) (t : FootballTeam) : FootballTeam :=
  mkTeam (name t) (has_completed_a_posession t) (min_yards t) (exp_yards t)
    (max_yards t) (punt_distance t) (punt_stdv t)
    (fourth_down_yard_thresh t) (fourth_down_position_thresh t)
    (two_point_conversion_rate t) (go_for_two t) (need_touchdown t)
    (need_score t) v (field_position t) (score t)
    (first_down_yards_needed t) (had_ball_first t)
    (has_completed_a_possession t) (drive_data t).

Definition with_field_position (v : Q) (t : FootballTeam) : FootballTeam :=
  mkTeam (name t) (has_completed_a_posession t) (min_yards t) (exp_yards t)
    (max_yards t) (punt_distance t) (punt_stdv t)
    (fourth_down_yard_thresh t) (fourth_down_position_thresh t)
    (two_point_conversion_rate t) (go_for_two t) (need_touchdown t)
    (need_score t) (downs_completed t) v (score t)
    (first_down_yards_needed t) (had_ball_first t)
    (has_completed_a_possession t) (drive_data t).

Definition with_score (v : Z) (t : FootballTeam) : FootballTeam :=
  mkTeam (name t) (has_completed_a_posession t) (min_yards t) (exp_yards t)
    (max_yards t) (punt_distance t) (punt_stdv t)
    (fourth_down_yard_thresh t) (fourth_down_position_thresh t)
    (two_point_conversion_rate t) (go_for_two t) (need_touchdown t)
    (need_score t) (downs_completed t) (field_position t) v
    (first_down_yards_needed t) (had_ball_first t)
    (has_completed_a_possession t) (drive_data t).

Definition with_first_down_yards_needed (v : pynum) (t : FootballTeam) : FootballTeam :=
  mkTeam (name t) (has_completed_a_posession t) (min_yards t) (exp_yards t)
    (max_yards t) (punt_distance t) (punt_stdv t)
    (fourth_down_yard_thresh t) (fourth_down_position_thresh t)
    (two_point_conversion_rate t) (go_for_two t) (need_touchdown t)
    (need_score t) (downs_completed t) (field_position t) (score t) v
    (had_ball_first t) (has_completed_a_possession t) (drive_data t).

Definition with_need_touchdown (v : bool) (t : FootballTeam) : FootballTeam :=
  mkTeam (name t) (has_completed_a_posession t) (min_yards t) (exp_yards t)
    (max_yards t) (punt_distance t) (punt_stdv t)
    (fourth_down_yard_thresh t) (fourth_down_position_thresh t)
    (two_point_conversion_rate t) (go_for_two t) v (need_score t)
    (downs_completed t) (field_position t) (score t)
    (first_down_yards_needed t) (had_ball_first t)
    (has_completed_a_possession t) (drive_data t).

Definition with_need_score (v : bool) (t : FootballTeam) : FootballTeam :=
  mkTeam (name t) (has_completed_a_posession t) (min_yards t) (exp_yards t)
    (max_yards t) (punt_distance t) (punt_stdv t)
    (fourth_down_yard_thresh t) (fourth_down_position_thresh t)
    (two_point_conversion_rate t) (go_for_two t) (need_touchdown t) v
    (downs_completed t) (field_position t) (score t)
    (first_down_yards_needed t) (had_ball_first t)
    (has_completed_a_possession t) (drive_data t).

Definition with_has_completed_a_possession (v : bool) (t : FootballTeam) : FootballTeam :=
  mkTeam (name t) (has_completed_a_posession t) (min_yards t) (exp_yards t)
    (max_yards t) (punt_distance t) (punt_stdv t)
    (fourth_down_yard_thresh t) (fourth_down_position_thresh t)
    (two_point_conversion_rate t) (go_for_two t) (need_touchdown t)
    (need_score t) (downs_completed t) (field_position t) (score t)
    (first_down_yards_needed t) (had_ball_first t) v (drive_data t).

Definition with_had_ball_first (v : option bool) (t : FootballTeam) : FootballTeam :=
  mkTeam (name t) (has_completed_a_posession t) (min_yards t) (exp_yards t)
    (max_yards t) (punt_distance t) (punt_stdv t)
    (fourth_down_yard_thresh t) (fourth_down_position_thresh t)
    (two_point_conversion_rate t) (go_for_two t) (need_touchdown t)
    (need_score t) (downs_completed t) (field_position t) (score t)
    (first_down_yards_needed t) v (has_completed_a_possession t)
    (drive_data t).

Definition with_drive_data (v : list DataFrame) (t : FootballTeam) : FootballTeam :=
  mkTeam (name t) (has_completed_a_posession t) (min_yards t) (exp_yards t)
    (max_yards t) (punt_distance t) (punt_stdv t)
    (fourth_down_yard_thresh t) (fourth_down_position_thresh t)
    (two_point_conversion_rate t) (go_for_two t) (need_touchdown t)
    (need_score t) (downs_completed t) (field_position t) (score t)
    (first_down_yards_needed t) (had_ball_first t)
    (has_completed_a_possession t) v.



(** ** The random source

    [numpy.random] is a collaborator of the program: the model takes its
    three samplers as an interface.  [triangular left mode right] is the
    yardage draw, [uniform] the draw in [[0,1)], [normal mean stdv] the punt
    distance; each returns the draw and the generator's next state. *)
Class RandomSource (G : Type) := {
  triangular : Q -> Q -> Q -> G -> Q * G;
  uniform : G -> Q * G;
  normal : Q -> Q -> G -> Q * G
}.

(** ** Methods of [FootballTeam] *)

Definition update_score (score_value : Z) (t : FootballTeam) : FootballTeam :=
  with_score (score t + score_value)%Z t.

Definition set_field_position (new_field_position : Q) (t : FootballTeam)
  : FootballTeam :=
  with_field_position new_field_position t.

Definition update_field_position (play_result : Q) (t : FootballTeam)
  : FootballTeam :=
  with_field_position (field_position t + play_result) t.


Definition reset_series (t : FootballTeam) : FootballTeam :=
  with_first_down_yards_needed (Num 10) (with_downs_completed 0%Z t).

(** [self.first_down_yards_needed -= play_result] is a [TypeError] when the
    attribute holds a tuple: a tuple has no subtraction with a number. *)
Definition update_yards_to_firstdown (play_result : Q) (t : FootballTeam)
  : res FootballTeam :=
  match first_down_yards_needed t with
  | Num y =>
      let t1 := with_first_down_yards_needed (Num (y - play_result)) t in
      if Qle_bool (y - play_result) 0 then Ok (reset_series t1) else Ok t1
  | Tup _ => Raise TypeError
  end.


Definition set_need_touchdown (value : bool) (t : FootballTeam) : FootballTeam :=
  with_need_touchdown value t.

Definition set_need_score (value : bool) (t : FootballTeam) : FootballTeam :=
  with_need_score value t.

Definition set_has_completed_possession (value : bool) (t : FootballTeam)
  : FootballTeam :=
  with_has_completed_a_possession value t.

Definition set_had_ball_first (value : bool) (t : FootballTeam) : FootballTeam :=
  with_had_ball_first (Some value) t.

Definition update_drive_data (df : DataFrame) (t : FootballTeam) : FootballTeam :=
  with_drive_data (drive_data t ++ [df]) t.



Definition get_drive_data (t : FootballTeam) : list DataFrame := drive_data t.

Definition check_touchdown (t : FootballTeam) : bool :=
  Qle_bool 100 (field_position t).

Definition get_play_conditions_dict (play_type : option string)
    (t : FootballTeam) : Play.t :=
  {| Play.field_position := field_position t;
     Play.down := downs_completed t;
     Play.yards_to_first_down := first_down_yards_needed t;
     Play.play_type := play_type;
     Play.yards_gained := None;
     Play.points_from_play := None;
     Play.punt_distance := None;
     Play.opponent_position := None;
     Play.made_kick := None |}.

(** [self.drive_data[-1].iloc[-1, :]]: both the list index and the row
    index raise [IndexError] on an empty sequence. *)
Definition get_last_play (t : FootballTeam) : res Play.t :=
  match last (drive_data t) with
  | None => Raise IndexError
  | Some df =>
      match last df with
      | None => Raise IndexError
      | Some row => Ok row
      end
  end.

Definition get_field_goal_probability (t : FootballTeam) : Q :=
  let yards_to_endzone := 100 - field_position t in
  let additional_kick_yards := 17 in
  let kick_distance := yards_to_endzone + additional_kick_yards in
  if Qle_bool kick_distance 40 then 90 # 100
  else if Qle_bool kick_distance 50 then 70 # 100
  else if Qle_bool kick_distance 60 then 60 # 100
  else 0.

(** [a and b] evaluates [b] only when [a] is true; comparing the tuple with
    a number is a [TypeError]. *)
Definition meets_fouth_down_criteria (t : FootballTeam) : res bool :=
  if Qlt_bool (fourth_down_position_thresh t) (field_position t) then
    match first_down_yards_needed t with
    | Num y => Ok (Qlt_bool y (fourth_down_yard_thresh t))
    | Tup _ => Raise TypeError
    end
  else Ok false.

(** [determine_opponent_position]: where the opponent starts, from the last
    play of the team's last drive. *)
Definition determine_opponent_position (t : FootballTeam) : res Q :=
  last_play ← get_last_play t;
  let play_type := Play.play_type last_play in
  points ← attr (Play.points_from_play last_play);
  if (0 <? points)%Z then Ok 25
  else if bool_decide (play_type = Some "punt"%string) then
    attr (Play.opponent_position last_play)
  else
    yards ← attr (Play.yards_gained last_play);
    Ok (100 - (Play.field_position last_play + yards)).

Section Team.
Context {G : Type} `{RS : RandomSource G}.

(** [simulate_play_yards] with [n_plays = 1]: one triangular draw. *)
Definition simulate_play_yards (t : FootballTeam) (g : G) : Q * G :=
  triangular (min_yards t) (exp_yards t) (max_yards t) g.

Definition touch_down_conversion (t : FootballTeam) (g : G) : Z * G :=
  let points_from_play := 0%Z in
  if negb (go_for_two t) then ((points_from_play + 1)%Z, g)
  else
    let '(u, g1) := uniform g in
    if Qle_bool u (two_point_conversion_rate t)
    then ((points_from_play + 2)%Z, g1)
    else (points_from_play, g1).

Definition run_play (t : FootballTeam) (g : G)
  : res (Play.t * FootballTeam * G) :=
  let '(play_result, g1) := simulate_play_yards t g in
  let result_dict := get_play_conditions_dict (Some "run_play"%string) t in
  let t1 := update_field_position play_result t in
  let t2 := with_downs_completed (downs_completed t1 + 1)%Z t1 in
  if check_touchdown t2 then
    let '(bonus, g2) := touch_down_conversion t2 g1 in
    let points_from_play := (6 + bonus)%Z in
    let t3 := update_score points_from_play t2 in
    Ok (Play.set_points_from_play points_from_play
          (Play.set_yards_gained play_result result_dict), t3, g2)
  else
    t3 ← update_yards_to_firstdown play_result t2;
    Ok (Play.set_points_from_play 0%Z
          (Play.set_yards_gained play_result result_dict), t3, g1).

Definition punt (t : FootballTeam) (g : G) : Play.t * FootballTeam * G :=
  let '(punt_distance, g1) := normal (punt_distance t) (punt_stdv t) g in
  let punt_landing_spot := punt_distance + field_position t in
  let opponent_position :=
    if Qle_bool punt_landing_spot 100 then 100 - punt_landing_spot
    else 25 in
  let result_dict := get_play_conditions_dict (Some "punt"%string) t in
  let result_dict := Play.set_punt_distance punt_distance result_dict in
  let result_dict :=
    Play.set_opponent_position opponent_position result_dict in
  let result_dict := Play.set_points_from_play 0%Z result_dict in
  (result_dict, with_downs_completed (downs_completed t + 1)%Z t, g1).

Definition kick_field_goal (t : FootballTeam) (g : G)
  : Play.t * FootballTeam * G :=
  let '(kick_attempt, g1) := uniform g in
  let made := Qle_bool kick_attempt (get_field_goal_probability t) in
  let points_from_play := if made then 3%Z else 0%Z in
  let t1 := if made then update_score points_from_play t else t in
  let result_dict :=
    get_play_conditions_dict (Some "field_goal"%string) t1 in
  let result_dict := Play.set_yards_gained (-5) result_dict in
  let result_dict :=
    Play.set_made_kick
      (Qle_bool kick_attempt (get_field_goal_probability t1))
      result_dict in
  let result_dict :=
    Play.set_points_from_play points_from_play result_dict in
  (result_dict, with_downs_completed (downs_completed t1 + 1)%Z t1, g1).

(** [a or b] evaluates [b] only when [a] is false. *)
Definition fourth_down_decision (t : FootballTeam) (g : G)
  : res (Play.t * FootballTeam * G) :=
  go ← (if need_touchdown t then Ok true
        else meets_fouth_down_criteria t);
  if (go : bool) then run_play t g
  else if Qlt_bool (55 # 100) (get_field_goal_probability t)
  then Ok (kick_field_goal t g)
  else if need_score t then run_play t g
  else Ok (punt t g).

(** The [while] loop of [simulate_drive]; [plays] is the list the loop
    appends to. *)
Fixpoint drive_loop (fuel : nat) (t : FootballTeam) (g : G)
    (plays : list Play.t) : outcome (FootballTeam * G * list Play.t) :=
  if (downs_completed t <=? 3)%Z && Qlt_bool (field_position t) 100 then
    match fuel with
    | O => Timeout
    | S fuel' =>
        '(result, t1, g1) ← lift (if (downs_completed t <=? 2)%Z
                                  then run_play t g
                                  else fourth_down_decision t g);
        drive_loop fuel' t1 g1 (plays ++ [result])
    end
  else Done (t, g, plays).

Definition simulate_drive (fuel : nat) (starting_position : Q)
    (t : FootballTeam) (g : G) : outcome (FootballTeam * G) :=
  let t := set_field_position starting_position t in
  let t := reset_series t in
  '(t, g, plays) ← drive_loop fuel t g [];
  let t := set_has_completed_possession true t in
  let df : DataFrame := plays in
  let t := update_drive_data df t in
  Done (t, g).
End Team.

(** ** Games

    A [FootballGame] owns two team objects.  They are two distinct objects,
    as [FootballSimulation.simulate_new_game] builds them.  [winner] and
    [loser] hold a reference to one of the two teams or [None]; a reference
    is the side of the team it points to, so that a later change of the team
    is seen through it. *)

Inductive side := ball_first | ball_second.

Record FootballGame := mkGame {
  ball_first_team : FootballTeam;
  ball_second_team : FootballTeam;
  game_data : gmap string pyval;
  winner : option side;
  loser : option side
}.

Definition FootballGame_init (ball_first_team ball_second_team : FootballTeam)
  : FootballGame :=
  {| ball_first_team := ball_first_team;
     ball_second_team := ball_second_team;
     game_data := ∅;
     winner := None;
     loser := None |}.

Definition deref (gm : FootballGame) (s : side) : FootballTeam :=
  match s with
  | ball_first => ball_first_team gm
  | ball_second => ball_second_team gm
  end.

Definition with_ball_first_team (t : FootballTeam) (gm : FootballGame)
  : FootballGame :=
  mkGame t (ball_second_team gm) (game_data gm) (winner gm) (loser gm).

Definition with_ball_second_team (t : FootballTeam) (gm : FootballGame)
  : FootballGame :=
  mkGame (ball_first_team gm) t (game_data gm) (winner gm) (loser gm).

Definition with_game_data (d : gmap string pyval) (gm : FootballGame)
  : FootballGame :=
  mkGame (ball_first_team gm) (ball_second_team gm) d (winner gm) (loser gm).

Definition with_winner (w : option side) (gm : FootballGame) : FootballGame :=
  mkGame (ball_first_team gm) (ball_second_team gm) (game_data gm) w
         (loser gm).

Definition with_loser (l : option side) (gm : FootballGame) : FootballGame :=
  mkGame (ball_first_team gm) (ball_second_team gm) (game_data gm)
         (winner gm) l.

Definition check_for_winner (gm : FootballGame) : bool :=
  (has_completed_a_possession (ball_first_team gm)
   && has_completed_a_possession (ball_second_team gm))
  && negb (score (ball_first_team gm) =? score (ball_second_team gm))%Z.

(** [set_winning_team].  The guard of the first branch is
    [not self.check_for_winner]: the operand is the bound method itself, not
    the value of a call.  The second component is the list of lines
    printed. *)
Definition set_winning_team (gm : FootballGame) : FootballGame * list string :=
  if negb (truthy (PyBoundMethod "check_for_winner")) then
    (gm, ["No winner yet!"%string])
  else if (score (ball_second_team gm) <? score (ball_first_team gm))%Z then
    (with_loser (Some ball_second) (with_winner (Some ball_first) gm), [])
  else if (score (ball_first_team gm) <? score (ball_second_team gm))%Z then
    (with_loser (Some ball_first) (with_winner (Some ball_second) gm), [])
  else
    (with_winner None gm, ["Something wierd happened!"%string]).

(** [pd.concat] of a list of frames; an empty list is a [ValueError]. *)
Definition pd_concat (dfs : list DataFrame) : res DataFrame :=
  match dfs with
  | [] => Raise ValueError
  | _ => Ok (concat dfs)
  end.

(** [df.sum().yards_gained]: the sum of the column over the rows that have
    the key; a frame in which no row has it has no such column. *)
Definition sum_yards_gained (df : DataFrame) : res Q :=
  match omap Play.yards_gained df with
  | [] => Raise AttributeError
  | col => Ok (foldr Qplus 0 col)
  end.

Definition pybool (o : option bool) : pyval :=
  match o with
  | Some b => VBool b
  | None => VNone
  end.

Definition pylen {A} (l : list A) : pyval := VInt (Z.of_nat (length l)).

Definition update_game_data (gm : FootballGame) : res FootballGame :=
  match winner gm with
  | None => Ok gm
  | Some w =>
      winner_df ← pd_concat (get_drive_data (deref gm w));
      l ← attr (loser gm);
      loser_df ← pd_concat (get_drive_data (deref gm l));
      let d := game_data gm in
      let d := <["winner"%string := VStr (name (deref gm w))]> d in
      let d := <["loser"%string := VStr (name (deref gm l))]> d in
      let d := <["winner_score"%string := VInt (score (deref gm w))]> d in
      let d := <["winner_score"%string := VInt (score (deref gm l))]> d in
      let d := <["winner_had_ball_first"%string :=
                   pybool (had_ball_first (deref gm w))]> d in
      let d := <["winning_team_number_of_drives"%string :=
                   pylen (get_drive_data (deref gm w))]> d in
      let d := <["losing_team_number_of_drives"%string :=
                   pylen (get_drive_data (deref gm l))]> d in
      yw ← sum_yards_gained winner_df;
      let d := <["total_yards_winning_team"%string := VFloat yw]> d in
      yl ← sum_yards_gained loser_df;
      let d := <["total_yards_losing_team"%string := VFloat yl]> d in
      Ok (with_game_data d gm)
  end.

Definition enable_sudden_death (gm : FootballGame) : FootballGame :=
  let gm := with_ball_first_team
              (set_need_touchdown false (ball_first_team gm)) gm in
  let gm := with_ball_first_team
              (set_need_score false (ball_first_team gm)) gm in
  let gm := with_ball_second_team
              (set_need_touchdown false (ball_second_team gm)) gm in
  let gm := with_ball_second_team
              (set_need_score false (ball_second_team gm)) gm in
  gm.

Section Game.
Context {G : Type} `{RS : RandomSource G}.

(** One team of the game drives. *)
Definition first_team_drive (fuel : nat) (starting_position : Q)
    (gm : FootballGame) (g : G) : outcome (FootballGame * G) :=
  '(t, g) ← simulate_drive fuel starting_position (ball_first_team gm) g;
  Done (with_ball_first_team t gm, g).

Definition second_team_drive (fuel : nat) (starting_position : Q)
    (gm : FootballGame) (g : G) : outcome (FootballGame * G) :=
  '(t, g) ← simulate_drive fuel starting_position (ball_second_team gm) g;
  Done (with_ball_second_team t gm, g).

(** The sudden-death [while not self.check_for_winner()] loop of
    [simulate_game].  The loop has two exits: its condition, and the
    [break] after the first team's drive. *)
Fixpoint sudden_death (fuel : nat) (starting_position : Q)
    (gm : FootballGame) (g : G) : outcome (FootballGame * G) :=
  if negb (check_for_winner gm) then
    match fuel with
    | O => Timeout
    | S fuel' =>
        '(gm, g) ← first_team_drive fuel starting_position gm g;
        if check_for_winner gm then Done (gm, g)
        else
          starting_position ←
            lift (determine_opponent_position (ball_first_team gm));
          '(gm, g) ← second_team_drive fuel starting_position gm g;
          starting_position ←
            lift (determine_opponent_position (ball_second_team gm));
          sudden_death fuel' starting_position gm g
    end
  else Done (gm, g).

(** The two regulation possessions of [simulate_game], up to and
    including [enable_sudden_death]; the result carries the starting
    position for the sudden-death loop. *)
Definition regulation (fuel : nat) (gm : FootballGame) (g : G)
  : outcome (Q * FootballGame * G) :=
  let gm := with_ball_first_team
              (set_had_ball_first true (ball_first_team gm)) gm in
  let gm := with_ball_second_team
              (set_had_ball_first false (ball_second_team gm)) gm in
  let starting_position := 25 in
  '(gm, g) ← first_team_drive fuel starting_position gm g;
  _ ← lift (determine_opponent_position (ball_first_team gm));
  starting_position ←
    lift (determine_opponent_position (ball_first_team gm));
  let gm :=
    if (score (ball_first_team gm) =? 7)%Z
    then with_ball_second_team
           (set_need_touchdown true (ball_second_team gm)) gm
    else gm in
  let gm :=
    if (score (ball_first_team gm) =? 3)%Z
    then with_ball_second_team
           (set_need_score true (ball_second_team gm)) gm
    else gm in
  '(gm, g) ← second_team_drive fuel starting_position gm g;
  starting_position ←
    lift (determine_opponent_position (ball_second_team gm));
  let gm := enable_sudden_death gm in
  Done (starting_position, gm, g).

(** [simulate_game]; the last component is what was printed. *)
Definition simulate_game (fuel : nat) (gm : FootballGame) (g : G)
  : outcome (FootballGame * G * list string) :=
  '(starting_position, gm, g) ← regulation fuel gm g;
  '(gm, g) ← sudden_death fuel starting_position gm g;
  let '(gm, printed) := set_winning_team gm in
  gm ← lift (update_game_data gm);
  Done (gm, g, printed).
End Game.

(** [FootballSimulation.simulate_new_game]: two fresh teams from the
    parameter dicts of the file (a name and [go_for_two]), one game. *)
Definition simulate_new_game {G : Type} `{RS : RandomSource G}
    (fuel : nat) (name1 : string) (go_for_two1 : bool)
    (name2 : string) (go_for_two2 : bool) (g : G)
  : outcome (FootballGame * G * list string) :=
  team1 ← lift (FootballTeam_default name1 go_for_two1);
  team2 ← lift (FootballTeam_default name2 go_for_two2);
  let game := FootballGame_init team1 team2 in
  simulate_game fuel game g.

(** ** Concrete random sources and teams used in examples *)

(** A source without state that answers every draw with the centre of the
    distribution: the mode of the triangular one, the mean of the normal
    one, one half for the uniform one. *)
Definition mode_source : RandomSource unit :=
  {| triangular := fun _ mode _ g => (mode, g);
     uniform := fun g => (1 # 2, g);
     normal := fun mean _ g => (mean, g) |}.

(** A source whose state is the list of the draws still to come, consumed
    in order whichever distribution asks; an exhausted list answers [0]. *)
Definition list_source : RandomSource (list Q) :=
  {| triangular := fun _ _ _ g => (hd 0 g, tl g);
     uniform := fun g => (hd 0 g, tl g);
     normal := fun _ _ g => (hd 0 g, tl g) |}.

(** The team of the source's keyword defaults. *)
Definition default_team (name : string) : FootballTeam :=
  match FootballTeam_default name false with
  | Ok t => t
  | Raise _ => mkTeam name false 0 0 0 0 0 0 0 0 false false false 0%Z 0 0%Z
                 (Num 0) None false []
  end.

(** A team that never gains more than one yard a play: yardage in
    [[-1, 1]] with mode [0], every other parameter at its default. *)
Definition stalled_team (name : string) : FootballTeam :=
  match FootballTeam_init name false (-1) 0 1 45 4 2 45 (1 # 2) false
          false false with
  | Ok t => t
  | Raise _ => default_team name
  end.


(** The fourth-down decision order in the words of the specification: the
    first matching rule wins.  [y] is the number of yards needed. *)
Inductive fourth_down_call := Convert | FieldGoal | PuntAway.

Definition fourth_down_policy (t : FootballTeam) (y : Q) : fourth_down_call :=
  if need_touchdown t
     || (Qlt_bool (fourth_down_position_thresh t) (field_position t)
         && Qlt_bool y (fourth_down_yard_thresh t))
  then Convert
  else if Qlt_bool (55 # 100) (get_field_goal_probability t) then FieldGoal
  else if need_score t then Convert
  else PuntAway.

(** ** The effect of one play on the drive state

    A drive steps three attributes: [downs_completed], [field_position] and
    [first_down_yards_needed].  [play_effect t k t'] lists what the plays
    of the source do to them: a run play that reaches the goal line, a run
    play that renews the set of downs, a run play that falls short, and a
    kick (field goal or punt). *)
Inductive effect_kind :=
| Touchdown (gain : Q)
| Renewed (gain : Q)
| Short (gain : Q)
| Kicked.

Definition is_kick (k : effect_kind) : bool :=
  match k with
  | Kicked => true
  | _ => false
  end.

(** The yards gained on a play of the given kind, for a run play. *)
Definition gain_of (k : effect_kind) : option Q :=
  match k with
  | Touchdown gain | Renewed gain | Short gain => Some gain
  | Kicked => None
  end.

Inductive play_effect (t : FootballTeam) : effect_kind -> FootballTeam -> Prop :=
| effect_touchdown (gain : Q) (t' : FootballTeam) :
    100 <= field_position t + gain ->
    field_position t' = field_position t + gain ->
    downs_completed t' = (downs_completed t + 1)%Z ->
    first_down_yards_needed t' = first_down_yards_needed t ->
    play_effect t (Touchdown gain) t'
| effect_renewed (gain y : Q) (t' : FootballTeam) :
    first_down_yards_needed t = Num y ->
    field_position t + gain < 100 ->
    y - gain <= 0 ->
    field_position t' = field_position t + gain ->
    downs_completed t' = 0%Z ->
    first_down_yards_needed t' = Num 10 ->
    play_effect t (Renewed gain) t'
| effect_short (gain y : Q) (t' : FootballTeam) :
    first_down_yards_needed t = Num y ->
    field_position t + gain < 100 ->
    0 < y - gain ->
    field_position t' = field_position t + gain ->
    downs_completed t' = (downs_completed t + 1)%Z ->
    first_down_yards_needed t' = Num (y - gain) ->
    play_effect t (Short gain) t'
| effect_kicked (t' : FootballTeam) :
    field_position t' = field_position t ->
    downs_completed t' = (downs_completed t + 1)%Z ->
    first_down_yards_needed t' = first_down_yards_needed t ->
    play_effect t Kicked t'.

(** The loop condition of [simulate_drive]. *)
Definition drive_continues (t : FootballTeam) : bool :=
  (downs_completed t <=? 3)%Z && Qlt_bool (field_position t) 100.

(** The play that the body of the drive loop runs in state [t]. *)
Definition next_play {G : Type} `{RS : RandomSource G}
    (t : FootballTeam) (g : G) : res (Play.t * FootballTeam * G) :=
  if (downs_completed t <=? 2)%Z then run_play t g
  else fourth_down_decision t g.

(** Plays of a drive that open a renewed set of downs: the plays after the
    first that start with no down completed. *)
Definition renewals (plays : list Play.t) : nat :=
  length (filter (fun p => Play.down p = 0%Z) (tail plays)).

(** Where the current set of downs began: the position from which ten yards
    are counted. *)
Definition series_start (t : FootballTeam) (y : Q) : Q :=
  field_position t + y - 10.

(** A number of plays that suffices for a drive from [start]: four for each
    ten yards, begun or complete, between [start] and the goal line. *)
Definition drive_fuel (start : Q) : nat :=
  Z.to_nat (4 * Qceiling ((100 - start) * (1 # 10))).

(** Two states of one team that differ at most in the attributes a play
    assigns: downs, position, yards needed and score. *)
Definition same_team (t t' : FootballTeam) : Prop :=
  name t' = name t
  /\ has_completed_a_posession t' = has_completed_a_posession t
  /\ min_yards t' = min_yards t
  /\ exp_yards t' = exp_yards t
  /\ max_yards t' = max_yards t
  /\ punt_distance t' = punt_distance t
  /\ punt_stdv t' = punt_stdv t
  /\ fourth_down_yard_thresh t' = fourth_down_yard_thresh t
  /\ fourth_down_position_thresh t' = fourth_down_position_thresh t
  /\ two_point_conversion_rate t' = two_point_conversion_rate t
  /\ go_for_two t' = go_for_two t
  /\ need_touchdown t' = need_touchdown t
  /\ need_score t' = need_score t
  /\ had_ball_first t' = had_ball_first t
  /\ has_completed_a_possession t' = has_completed_a_possession t
  /\ drive_data t' = drive_data t.

(** Every play of [plays] that opens a set of downs does so ten yards or
    more beyond [base], the start of the set before it. *)
Fixpoint sets_spaced (base : Q) (plays : list Play.t) : Prop :=
  match plays with
  | [] => True
  | p :: rest =>
      if decide (Play.down p = 0%Z)
      then base + 10 <= Play.field_position p
           /\ sets_spaced (Play.field_position p) rest
      else sets_spaced base rest
  end.

(** A team put in the middle of a drive: [d] downs completed, at position
    [fp], with [y] yards to go. *)
Definition drive_state (d : Z) (fp y : Q) (t : FootballTeam) : FootballTeam :=
  with_first_down_yards_needed (Num y)
    (with_downs_completed d (with_field_position fp t)).

(** The reading of "a play on the last down that gains the yards needed
    renews the set of downs" that takes the gain alone as the condition. *)
Definition renews_on_enough_gain {G : Type} `{RS : RandomSource G}
    (t : FootballTeam) (g : G) : Prop :=
  forall p t' g' y gain,
    downs_completed t = 3%Z ->
    first_down_yards_needed t = Num y ->
    next_play t g = Ok (p, t', g') ->
    Play.play_type p = Some "run_play"%string ->
    Play.yards_gained p = Some gain ->
    y - gain <= 0 ->
    downs_completed t' = 0%Z
    /\ first_down_yards_needed t' = Num 10
    /\ field_position t' = field_position t + gain
    /\ drive_continues t' = true.



(** A team that cannot move the ball when every draw is the centre of its
    distribution: most-likely gain 0, default punt and position threshold,
    no obligation to score, no points yet. *)
Definition stalled (t : FootballTeam) : Prop :=
  exp_yards t = 0
  /\ punt_distance t = 45
  /\ fourth_down_position_thresh t = 45
  /\ need_touchdown t = false
  /\ need_score t = false
  /\ score t = 0%Z.

(** The number of sets of downs that still fit between the start of the
    current set and the goal line. *)
Definition sets_left (t : FootballTeam) (y : Q) : Z :=
  Qceiling ((100 - series_start t y) * (1 # 10)).

(** What is recorded of a play inside a drive: the down is one of 0..3 and
    the yards needed are a number. *)
Definition in_drive_record (p : Play.t) : Prop :=
  (0 <= Play.down p <= 3)%Z /\ exists y, Play.yards_to_first_down p = Num y.


(** ** The rest of [FootballGame] and [FootballSimulation] *)

(** [FootballGame.get_last_play]: the last play of the last drive of the
    team that the flag selects. *)
Definition FootballGame_get_last_play (gm : FootballGame)
    (ball_first_team_flag : bool) : res Play.t :=
  let dfs := if ball_first_team_flag
             then get_drive_data (ball_first_team gm)
             else get_drive_data (ball_second_team gm) in
  match last dfs with
  | None => Raise IndexError
  | Some df =>
      match last df with
      | None => Raise IndexError
      | Some row => Ok row
      end
  end.

(** [FootballGame.determine_drive_start]. *)
Definition determine_drive_start (gm : FootballGame)
    (ball_first_team_flag : bool) : res Q :=
  last_play ← FootballGame_get_last_play gm ball_first_team_flag;
  let play_type := Play.play_type last_play in
  points ← attr (Play.points_from_play last_play);
  if (0 <? points)%Z then Ok 25
  else if bool_decide (play_type = Some "punt"%string) then
    attr (Play.opponent_position last_play)
  else
    yards ← attr (Play.yards_gained last_play);
    Ok (100 - (Play.field_position last_play + yards)).

(** [FootballSimulation.simulate_games]: the list comprehension runs
    [simulate_new_game] [n] times, in order, on the one random source; the
    result is the list stored in [self.games], with what was printed. *)
Fixpoint simulate_games {G : Type} `{RS : RandomSource G}
    (fuel : nat) (n_interations : nat)
    (name1 : string) (go_for_two1 : bool)
    (name2 : string) (go_for_two2 : bool) (g : G)
  : outcome (list FootballGame * G * list string) :=
  match n_interations with
  | O => Done ([], g, [])
  | S n =>
      '(game, g, printed1) ←
        simulate_new_game fuel name1 go_for_two1 name2 go_for_two2 g;
      '(games, g, printed2) ←
        simulate_games fuel n name1 go_for_two1 name2 go_for_two2 g;
      Done (game :: games, g, printed1 ++ printed2)
  end.

(** [FootballSimulation.summarize_df]: one row per game, the game's
    summary dict. *)
Definition summarize_df (games : list FootballGame)
  : list (gmap string pyval) :=
  game_data <$> games.

(** The parameters of a team: the attributes that only the constructor and
    the two conversion setters assign. *)
Definition same_parameters (t t' : FootballTeam) : Prop :=
  name t' = name t
  /\ has_completed_a_posession t' = has_completed_a_posession t
  /\ min_yards t' = min_yards t
  /\ exp_yards t' = exp_yards t
  /\ max_yards t' = max_yards t
  /\ punt_distance t' = punt_distance t
  /\ punt_stdv t' = punt_stdv t
  /\ fourth_down_yard_thresh t' = fourth_down_yard_thresh t
  /\ fourth_down_position_thresh t' = fourth_down_position_thresh t
  /\ two_point_conversion_rate t' = two_point_conversion_rate t
  /\ go_for_two t' = go_for_two t.

(** The points a single play can record. *)
Definition play_points (pts : Z) : Prop :=
  pts = 0%Z \/ pts = 3%Z \/ pts = 6%Z \/ pts = 7%Z \/ pts = 8%Z.

(** A play that is a run and scores nothing. *)
Definition scoreless_run (p : Play.t) : Prop :=
  Play.play_type p = Some "run_play"%string
  /\ Play.points_from_play p = Some 0%Z.

(** A team that goes for it on every fourth down and can lose up to 15
    yards a play. *)
Definition reckless_team (name : string) : FootballTeam :=
  match FootballTeam_init name false (-15) 6 25 45 4 200 (-200) (1 # 2)
          false false false with
  | Ok t => t
  | Raise _ => default_team name
  end.

(** [progressed n t t']: [t'] is the team [t] after [n] more drives: the
    same parameters, flags and [had_ball_first], [n] more frames, a score
    that did not drop, and a completed possession once a drive was made. *)
Definition progressed (n : nat) (t t' : FootballTeam) : Prop :=
  same_parameters t t'
  /\ need_touchdown t' = need_touchdown t
  /\ need_score t' = need_score t
  /\ had_ball_first t' = had_ball_first t
  /\ length (drive_data t') = (length (drive_data t) + n)%nat
  /\ (score t <= score t')%Z
  /\ (has_completed_a_possession t = true \/ (0 < n)%nat ->
      has_completed_a_possession t' = true).


(** The eight keys that [update_game_data] writes. *)
Definition summary_keys : gset string :=
  {[ "winner"%string; "loser"%string; "winner_score"%string;
     "winner_had_ball_first"%string;
     "winning_team_number_of_drives"%string;
     "losing_team_number_of_drives"%string;
     "total_yards_winning_team"%string;
     "total_yards_losing_team"%string ]}.

(** * Properties *)

(** ** Comparisons *)

Lemma Qlt_bool_iff x y : Qlt_bool x y = true <-> x < y.
Proof.
  unfold Qlt_bool. rewrite negb_true_iff.
  split.
  - intros H. apply Qnot_le_lt. intros Hle.
    apply Qle_bool_iff in Hle. congruence.
  - intros H. destruct (Qle_bool y x) eqn:E; [|reflexivity].
    apply Qle_bool_iff in E. exfalso. apply (Qlt_not_le _ _ H E).
Qed.

Lemma Qlt_bool_false x y : Qlt_bool x y = false <-> y <= x.
Proof.
  unfold Qlt_bool. rewrite negb_false_iff. apply Qle_bool_iff.
Qed.

Lemma Qle_bool_false x y : Qle_bool x y = false <-> y < x.
Proof.
  rewrite <- Qlt_bool_iff. unfold Qlt_bool.
  destruct (Qle_bool x y); simpl; split; congruence.
Qed.

(** ** Construction of a team *)

(** C4 (counterexample).  A team whose minimum exceeds its most-likely
    yards, whose most-likely yards exceed its maximum, whose two-point
    probability is 2 and whose punt deviation is -4 is constructed without
    any error. *)
Lemma invalid_team_is_constructed :
  ~ (exists e : exn,
        FootballTeam_init "bad" false 10 6 (-5) 45 (-4) 2 45 2
                          false false false = Raise e).
Proof. intros [e H]. discriminate H. Qed.

(** C4 (amended).  The constructor never raises: for all arguments it
    returns a team that stores the yardage bounds, the two-point
    probability and the punt deviation exactly as given. *)
Theorem FootballTeam_init_never_raises
    (name : string) (done_ : bool)
    (min_ exp_ max_ punt_ stdv_ ythresh pthresh rate : Q)
    (two td sc : bool) :
  exists t : FootballTeam,
    FootballTeam_init name done_ min_ exp_ max_ punt_ stdv_ ythresh pthresh
                      rate two td sc = Ok t
    /\ min_yards t = min_ /\ exp_yards t = exp_ /\ max_yards t = max_
    /\ two_point_conversion_rate t = rate /\ punt_stdv t = stdv_
    /\ punt_distance t = punt_ /\ drive_data t = [].
Proof. eexists. split; [reflexivity|]. repeat split. Qed.

(** ** The plays *)

Section Plays.
Context {G : Type} `{RS : RandomSource G}.

Lemma drive_loop_unfold fuel (t : FootballTeam) (g : G) plays :
  drive_loop fuel t g plays =
  if drive_continues t then
    match fuel with
    | O => Timeout
    | S fuel' =>
        '(result, t1, g1) ← lift (next_play t g);
        drive_loop fuel' t1 g1 (plays ++ [result])
    end
  else Done (t, g, plays).
Proof. destruct fuel; reflexivity. Qed.

(** A run play in a state whose yards needed are a number. *)
Lemma run_play_effect (t : FootballTeam) (g : G) (y : Q) :
  first_down_yards_needed t = Num y ->
  exists p t' g' k,
    run_play t g = Ok (p, t', g')
    /\ play_effect t k t' /\ k <> Kicked
    /\ Play.down p = downs_completed t
    /\ Play.field_position p = field_position t
    /\ Play.yards_to_first_down p = Num y
    /\ Play.play_type p = Some "run_play"%string
    /\ Play.yards_gained p = gain_of k
    /\ gain_of k = Some (simulate_play_yards t g).1.
Proof.
  intros Hy. unfold run_play.
  destruct (simulate_play_yards t g) as [gain g1] eqn:Hs. simpl.
  unfold check_touchdown. simpl.
  destruct (Qle_bool 100 (field_position t + gain)) eqn:Htd.
  - destruct (touch_down_conversion _ g1) as [bonus g2].
    eexists _, _, _, (Touchdown gain). split; [reflexivity|].
    split; [|repeat split; simpl; auto; discriminate].
    apply (effect_touchdown t gain); simpl; auto.
    by apply Qle_bool_iff.
  - unfold update_yards_to_firstdown. simpl. rewrite Hy.
    apply Qle_bool_false in Htd.
    destruct (Qle_bool (y - gain) 0) eqn:Hc.
    + eexists _, _, _, (Renewed gain). split; [reflexivity|].
      split; [|repeat split; simpl; auto; discriminate].
      apply (effect_renewed t gain y); simpl; auto.
      by apply Qle_bool_iff.
    + eexists _, _, _, (Short gain). split; [reflexivity|].
      split; [|repeat split; simpl; auto; discriminate].
      apply (effect_short t gain y); simpl; auto.
      by apply Qle_bool_false.
Qed.

Lemma punt_effect (t : FootballTeam) (g : G) :
  exists p t' g',
    punt t g = (p, t', g')
    /\ play_effect t Kicked t'
    /\ Play.down p = downs_completed t
    /\ Play.field_position p = field_position t
    /\ Play.yards_to_first_down p = first_down_yards_needed t
    /\ Play.play_type p = Some "punt"%string.
Proof.
  unfold punt. destruct (normal _ _ g) as [d g1].
  eexists _, _, _. split; [reflexivity|].
  split; [|repeat split].
  apply effect_kicked; reflexivity.
Qed.

Lemma kick_field_goal_effect (t : FootballTeam) (g : G) :
  exists p t' g',
    kick_field_goal t g = (p, t', g')
    /\ play_effect t Kicked t'
    /\ Play.down p = downs_completed t
    /\ Play.field_position p = field_position t
    /\ Play.yards_to_first_down p = first_down_yards_needed t
    /\ Play.play_type p = Some "field_goal"%string.
Proof.
  unfold kick_field_goal. destruct (uniform g) as [u g1].
  destruct (Qle_bool u (get_field_goal_probability t));
    (eexists _, _, _; split; [reflexivity|]);
    (split; [|repeat split]); apply effect_kicked; reflexivity.
Qed.

(** The play of the loop body never raises once the yards needed are a
    number, and it has one of the four effects; a kick happens on the
    last down only.  The record of a run play holds the yards gained. *)
Lemma next_play_effect (t : FootballTeam) (g : G) (y : Q) :
  first_down_yards_needed t = Num y ->
  exists p t' g' k,
    next_play t g = Ok (p, t', g')
    /\ play_effect t k t'
    /\ (k = Kicked -> (2 < downs_completed t)%Z)
    /\ Play.down p = downs_completed t
    /\ Play.field_position p = field_position t
    /\ Play.yards_to_first_down p = Num y
    /\ (if is_kick k
        then Play.play_type p = Some "punt"%string
             \/ Play.play_type p = Some "field_goal"%string
        else Play.play_type p = Some "run_play"%string
             /\ Play.yards_gained p = gain_of k).
Proof.
  intros Hy. unfold next_play.
  assert (Hrun : forall d, exists p t' g' k,
             run_play t g = Ok (p, t', g')
             /\ play_effect t k t'
             /\ (k = Kicked -> d)
             /\ Play.down p = downs_completed t
             /\ Play.field_position p = field_position t
             /\ Play.yards_to_first_down p = Num y
             /\ (if is_kick k
                 then Play.play_type p = Some "punt"%string
                      \/ Play.play_type p = Some "field_goal"%string
                 else Play.play_type p = Some "run_play"%string
                      /\ Play.yards_gained p = gain_of k)).
  { intros d. destruct (run_play_effect t g y Hy)
      as (p & t' & g' & k & -> & He & Hk & ? & ? & ? & ? & ? & _).
    eexists _, _, _, k.
    repeat split; eauto; [intros; congruence|].
    destruct k; simpl; auto; congruence. }
  assert (Hfg : (2 < downs_completed t)%Z -> exists p t' g' k,
             Ok (kick_field_goal t g) = Ok (p, t', g')
             /\ play_effect t k t'
             /\ (k = Kicked -> (2 < downs_completed t)%Z)
             /\ Play.down p = downs_completed t
             /\ Play.field_position p = field_position t
             /\ Play.yards_to_first_down p = Num y
             /\ (if is_kick k
                 then Play.play_type p = Some "punt"%string
                      \/ Play.play_type p = Some "field_goal"%string
                 else Play.play_type p = Some "run_play"%string
                      /\ Play.yards_gained p = gain_of k)).
  { intros Hd. destruct (kick_field_goal_effect t g)
      as (p & t' & g' & -> & He & ? & ? & Hn & ?).
    eexists _, _, _, Kicked. rewrite Hn. simpl.
    repeat split; eauto. }
  assert (Hpunt : (2 < downs_completed t)%Z -> exists p t' g' k,
             Ok (punt t g) = Ok (p, t', g')
             /\ play_effect t k t'
             /\ (k = Kicked -> (2 < downs_completed t)%Z)
             /\ Play.down p = downs_completed t
             /\ Play.field_position p = field_position t
             /\ Play.yards_to_first_down p = Num y
             /\ (if is_kick k
                 then Play.play_type p = Some "punt"%string
                      \/ Play.play_type p = Some "field_goal"%string
                 else Play.play_type p = Some "run_play"%string
                      /\ Play.yards_gained p = gain_of k)).
  { intros Hd. destruct (punt_effect t g)
      as (p & t' & g' & -> & He & ? & ? & Hn & ?).
    eexists _, _, _, Kicked. rewrite Hn. simpl.
    repeat split; eauto. }
  destruct (downs_completed t <=? 2)%Z eqn:Hd; [apply Hrun|].
  apply Z.leb_gt in Hd.
  unfold fourth_down_decision, meets_fouth_down_criteria.
  rewrite Hy.
  destruct (need_touchdown t); simpl; [apply Hrun|].
  destruct (Qlt_bool (fourth_down_position_thresh t) (field_position t));
    simpl; [destruct (Qlt_bool y (fourth_down_yard_thresh t));
            [apply Hrun|]|];
    (destruct (Qlt_bool (55 # 100) (get_field_goal_probability t));
     [by apply Hfg|]);
    (destruct (need_score t); [apply Hrun|by apply Hpunt]).
Qed.
End Plays.

(** ** Arithmetic of the drive measure *)

Lemma Qceiling_pos (x : Q) : 0 < x -> (1 <= Qceiling x)%Z.
Proof.
  intros Hx.
  assert (H : inject_Z 0 < inject_Z (Qceiling x)).
  { eapply Qlt_le_trans; [exact Hx|apply Qle_ceiling]. }
  rewrite <- Zlt_Qlt in H. lia.
Qed.

Lemma Qceiling_step (a b : Q) : a + 1 <= b -> (Qceiling a + 1 <= Qceiling b)%Z.
Proof.
  intros Hab.
  assert (H : inject_Z (Qceiling a - 1) < inject_Z (Qceiling b - 1)).
  { eapply Qlt_le_trans; [apply Qceiling_lt|].
    unfold Z.sub. rewrite inject_Z_plus.
    pose proof (Qle_ceiling b) as Hb.
    change (inject_Z (Z.opp 1)) with (-1 # 1). lra. }
  rewrite <- Zlt_Qlt in H. lia.
Qed.

Lemma inject_Z_of_nat_succ (n : nat) :
  inject_Z (Z.of_nat (S n)) == inject_Z (Z.of_nat n) + 1.
Proof. rewrite Nat2Z.inj_succ. unfold Z.succ. by rewrite inject_Z_plus. Qed.

Lemma renewals_cons_nil (p : Play.t) : renewals [p] = 0%nat.
Proof. reflexivity. Qed.

Lemma renewals_cons_zero (p r : Play.t) (rest : list Play.t) :
  Play.down r = 0%Z ->
  renewals (p :: r :: rest) = S (renewals (r :: rest)).
Proof.
  intros Hr. unfold renewals. simpl tail.
  rewrite filter_cons_True by exact Hr. reflexivity.
Qed.

Lemma renewals_cons_nonzero (p r : Play.t) (rest : list Play.t) :
  Play.down r <> 0%Z ->
  renewals (p :: r :: rest) = renewals (r :: rest).
Proof.
  intros Hr. unfold renewals. simpl tail.
  rewrite filter_cons_False by exact Hr. reflexivity.
Qed.

(** ** Drives *)

Section Drives.
Context {G : Type} `{RS : RandomSource G}.

Lemma drive_continues_true (t : FootballTeam) :
  drive_continues t = true <->
  (downs_completed t <= 3)%Z /\ field_position t < 100.
Proof.
  unfold drive_continues.
  rewrite andb_true_iff, Z.leb_le, Qlt_bool_iff. reflexivity.
Qed.

Lemma drive_continues_false (t : FootballTeam) :
  drive_continues t = false <->
  (3 < downs_completed t)%Z \/ 100 <= field_position t.
Proof.
  unfold drive_continues.
  rewrite andb_false_iff, Z.leb_gt, Qlt_bool_false. reflexivity.
Qed.

Lemma drive_loop_stops fuel (t : FootballTeam) (g : G) plays :
  drive_continues t = false ->
  drive_loop fuel t g plays = Done (t, g, plays).
Proof. intros H. rewrite drive_loop_unfold, H. reflexivity. Qed.

(** More fuel does not change a result. *)
Lemma drive_loop_fuel_mono fuel fuel' (t : FootballTeam) (g : G) plays :
  (fuel <= fuel')%nat ->
  drive_loop fuel t g plays <> Timeout ->
  drive_loop fuel' t g plays = drive_loop fuel t g plays.
Proof.
  revert fuel' t g plays.
  induction fuel as [|fuel IH]; intros fuel' t g plays Hle Hr.
  - rewrite drive_loop_unfold in Hr. rewrite !drive_loop_unfold.
    destruct (drive_continues t); [congruence|]. by destruct fuel'.
  - destruct fuel' as [|fuel']; [lia|].
    rewrite drive_loop_unfold in Hr. rewrite !drive_loop_unfold.
    destruct (drive_continues t); [|reflexivity].
    destruct (next_play t g) as [[[p t1] g1]|e]; simpl in *; [|reflexivity].
    apply IH; [lia|exact Hr].
Qed.

Lemma sets_spaced_proper (b b' : Q) (plays : list Play.t) :
  b == b' -> sets_spaced b plays -> sets_spaced b' plays.
Proof.
  revert b b'. induction plays as [|p rest IH]; intros b b' Hb; simpl;
    [done|].
  destruct (decide (Play.down p = 0%Z)).
  - intros [H1 H2]. split; [by rewrite <- Hb|exact H2].
  - by apply IH.
Qed.

(** The drive loop ends: from a state whose yards needed are a number and
    whose set of downs began short of the goal line, fuel above the
    measure [4 * sets_left - downs_completed] gives a result.  The result
    extends the play list by [new], the plays of the rest of the drive;
    those number at most four for each renewal plus the downs left in the
    current set, and each renewal moved the start of the set by ten yards
    or more while staying short of the goal line. *)
Lemma drive_loop_total fuel :
  forall (t : FootballTeam) (g : G) (plays : list Play.t) (y : Q),
    first_down_yards_needed t = Num y ->
    (0 <= downs_completed t)%Z ->
    series_start t y < 100 ->
    (4 * sets_left t y - downs_completed t <= Z.of_nat fuel)%Z ->
    exists t' g' new,
      drive_loop fuel t g plays = Done (t', g', plays ++ new)
      /\ drive_continues t' = false
      /\ (if drive_continues t
          then exists p rest, new = p :: rest
                              /\ Play.down p = downs_completed t
                              /\ Play.field_position p = field_position t
          else new = [])
      /\ (drive_continues t = true ->
          (Z.of_nat (length new) + downs_completed t
           <= 4 * Z.of_nat (renewals new) + 4)%Z)
      /\ inject_Z (Z.of_nat (renewals new)) * 10 + series_start t y < 100
      /\ Forall in_drive_record new
      /\ (exists y', first_down_yards_needed t' = Num y')
      /\ sets_spaced (series_start t y) (tail new).
Proof.
  induction fuel as [|fuel IH]; intros t g plays y Hy Hd Hs Hm.
  - (* no fuel: the loop condition is already false *)
    assert (Hpos : (1 <= sets_left t y)%Z).
    { apply Qceiling_pos. lra. }
    destruct (drive_continues t) eqn:Hc.
    { apply drive_continues_true in Hc. lia. }
    exists t, g, []. rewrite drive_loop_stops, app_nil_r by done.
    rewrite Hc. repeat split; eauto; [discriminate|].
    change (inject_Z (Z.of_nat (renewals []))) with 0. lra.
  - destruct (drive_continues t) eqn:Hc; cycle 1.
    { exists t, g, []. rewrite drive_loop_stops, app_nil_r by done.
      rewrite Hc. repeat split; eauto; [discriminate|].
      change (inject_Z (Z.of_nat (renewals []))) with 0. lra. }
    pose proof Hc as Hc'. apply drive_continues_true in Hc' as [Hd3 Hfp].
    destruct (next_play_effect t g y Hy)
      as (p & t1 & g1 & k & Hplay & He & Hk & Hpd & Hpf & Hpy & _).
    rewrite drive_loop_unfold, Hc, Hplay. simpl.
    assert (Hrec : in_drive_record p).
    { split; [lia|eauto]. }
    (* the drive stops after this play *)
    assert (Hstop : drive_continues t1 = false ->
                    (exists y', first_down_yards_needed t1 = Num y') ->
      exists t' g' new,
        drive_loop fuel t1 g1 (plays ++ [p]) = Done (t', g', plays ++ new)
        /\ drive_continues t' = false
        /\ (exists p0 rest, new = p0 :: rest
                            /\ Play.down p0 = downs_completed t
                            /\ Play.field_position p0 = field_position t)
        /\ (true = true ->
            (Z.of_nat (length new) + downs_completed t
             <= 4 * Z.of_nat (renewals new) + 4)%Z)
        /\ inject_Z (Z.of_nat (renewals new)) * 10 + series_start t y < 100
        /\ Forall in_drive_record new
        /\ (exists y', first_down_yards_needed t' = Num y')
        /\ sets_spaced (series_start t y) (tail new)).
    { intros Hc1 Hy1. exists t1, g1, [p].
      rewrite drive_loop_stops by done.
      repeat split; eauto.
      - intros _. rewrite renewals_cons_nil. simpl. lia.
      - change (inject_Z (Z.of_nat (renewals [p]))) with 0. lra. }
    inversion He as [gain t1' Htd Hf1 Hd1 Hy1
                    |gain y0 t1' Hy0 Hlt Hconv Hf1 Hd1 Hy1
                    |gain y0 t1' Hy0 Hlt Hshort Hf1 Hd1 Hy1
                    |t1' Hf1 Hd1 Hy1]; subst.
    + (* touchdown *)
      apply Hstop.
      * apply drive_continues_false. right. by rewrite Hf1.
      * rewrite Hy1, Hy. eauto.
    + (* renewed set of downs *)
      rewrite Hy in Hy0. injection Hy0 as <-.
      assert (Hs1 : series_start t1 10 < 100).
      { unfold series_start. rewrite Hf1. lra. }
      assert (Hsl : (sets_left t1 10 + 1 <= sets_left t y)%Z).
      { apply Qceiling_step. unfold series_start. rewrite Hf1. lra. }
      destruct (IH t1 g1 (plays ++ [p]) 10 Hy1 ltac:(lia) Hs1 ltac:(lia))
        as (t' & g' & rest & Hrun & Hend & Hhead & Hlen & Hren & Hall
            & Hy' & Hsp).
      assert (Hc1 : drive_continues t1 = true).
      { apply drive_continues_true. split; [lia|by rewrite Hf1]. }
      rewrite Hc1 in Hhead. destruct Hhead as (r & rest' & -> & Hr & Hrf).
      specialize (Hlen Hc1).
      exists t', g', (p :: r :: rest').
      rewrite Hrun, <- app_assoc. simpl app.
      rewrite (renewals_cons_zero p r rest') by lia.
      split; [reflexivity|]. split; [exact Hend|].
      split; [eauto|]. split; [intros _; simpl length in *; lia|].
      split.
      { rewrite inject_Z_of_nat_succ.
        unfold series_start in *. rewrite Hf1 in Hren. lra. }
      split; [auto|]. split; [exact Hy'|].
      simpl. rewrite decide_True by lia. split.
      { rewrite Hrf, Hf1. unfold series_start. lra. }
      { eapply sets_spaced_proper; [|exact Hsp].
        unfold series_start. rewrite Hrf. lra. }
    + (* short of the line to gain *)
      rewrite Hy in Hy0. injection Hy0 as <-.
      assert (Heq : series_start t1 (y - gain) == series_start t y).
      { unfold series_start. rewrite Hf1. lra. }
      assert (Hs1 : series_start t1 (y - gain) < 100) by (rewrite Heq; lra).
      assert (Hsl : sets_left t1 (y - gain) = sets_left t y).
      { unfold sets_left. apply Qceiling_comp. rewrite Heq. reflexivity. }
      destruct (IH t1 g1 (plays ++ [p]) (y - gain) Hy1 ltac:(lia) Hs1
                   ltac:(lia))
        as (t' & g' & rest & Hrun & Hend & Hhead & Hlen & Hren & Hall
            & Hy' & Hsp).
      destruct (drive_continues t1) eqn:Hc1.
      * destruct Hhead as (r & rest' & -> & Hr & Hrf).
        specialize (Hlen eq_refl).
        exists t', g', (p :: r :: rest').
        rewrite Hrun, <- app_assoc. simpl app.
        rewrite (renewals_cons_nonzero p r rest') by lia.
        split; [reflexivity|]. split; [exact Hend|].
        split; [eauto|]. split; [intros _; simpl length in *; lia|].
        split; [rewrite <- Heq; exact Hren|].
        split; [auto|]. split; [exact Hy'|].
        simpl. rewrite decide_False by lia.
        eapply sets_spaced_proper; [exact Heq|exact Hsp].
      * subst rest. exists t', g', [p].
        rewrite Hrun, app_nil_r. repeat split; eauto.
        -- intros _. rewrite renewals_cons_nil. simpl. lia.
        -- change (inject_Z (Z.of_nat (renewals [p]))) with 0. lra.
    + (* field goal or punt: the last down is spent *)
      apply Hstop.
      * apply drive_continues_false. left. specialize (Hk eq_refl). lia.
      * rewrite Hy1, Hy. eauto.
Qed.
End Drives.

Section Frame.
Context {G : Type} `{RS : RandomSource G}.

Lemma same_team_refl (t : FootballTeam) : same_team t t.
Proof. repeat split. Qed.

Lemma same_team_trans (t1 t2 t3 : FootballTeam) :
  same_team t1 t2 -> same_team t2 t3 -> same_team t1 t3.
Proof.
  unfold same_team. intros H1 H2.
  repeat match goal with H : _ /\ _ |- _ => destruct H end.
  repeat split; congruence.
Qed.

Lemma run_play_frame (t : FootballTeam) (g : G) p t' g' :
  run_play t g = Ok (p, t', g') -> same_team t t'.
Proof.
  unfold run_play, update_yards_to_firstdown.
  destruct (simulate_play_yards t g) as [gain g1]. simpl.
  destruct (check_touchdown _).
  - destruct (touch_down_conversion _ g1) as [bonus g2].
    intros [= <- <- <-]. repeat split.
  - destruct (first_down_yards_needed t); simpl; [|discriminate].
    destruct (Qle_bool _ 0); intros [= <- <- <-]; repeat split.
Qed.

Lemma punt_frame (t : FootballTeam) (g : G) p t' g' :
  punt t g = (p, t', g') -> same_team t t'.
Proof.
  unfold punt. destruct (normal _ _ g) as [d g1].
  intros [= <- <- <-]. repeat split.
Qed.

Lemma kick_field_goal_frame (t : FootballTeam) (g : G) p t' g' :
  kick_field_goal t g = (p, t', g') -> same_team t t'.
Proof.
  unfold kick_field_goal. destruct (uniform g) as [u g1].
  destruct (Qle_bool u _); intros [= <- <- <-]; repeat split.
Qed.

Lemma fourth_down_decision_frame (t : FootballTeam) (g : G) p t' g' :
  fourth_down_decision t g = Ok (p, t', g') -> same_team t t'.
Proof.
  unfold fourth_down_decision.
  destruct (if need_touchdown t then _ else _) as [[|]|e]; simpl;
    [apply run_play_frame| |discriminate].
  destruct (Qlt_bool _ _).
  - intros [= H]. by apply kick_field_goal_frame in H.
  - destruct (need_score t); [apply run_play_frame|].
    intros [= H]. by apply punt_frame in H.
Qed.

Lemma next_play_frame (t : FootballTeam) (g : G) p t' g' :
  next_play t g = Ok (p, t', g') -> same_team t t'.
Proof.
  unfold next_play. destruct (_ <=? _)%Z;
    [apply run_play_frame|apply fourth_down_decision_frame].
Qed.

(** The drive loop changes downs, position, yards needed and score only,
    and it only appends to the play list. *)
Lemma drive_loop_frame fuel (t : FootballTeam) (g : G) plays t' g' plays' :
  drive_loop fuel t g plays = Done (t', g', plays') -> same_team t t'.
Proof.
  revert t g plays.
  induction fuel as [|fuel IH]; intros t g plays;
    rewrite drive_loop_unfold; destruct (drive_continues t);
    try discriminate; try (intros [= <- _ _]; apply same_team_refl).
  destruct (next_play t g) as [[[p t1] g1]|e] eqn:Hp; simpl;
    [|discriminate].
  intros Hr. apply next_play_frame in Hp. apply IH in Hr.
  eapply same_team_trans; eauto.
Qed.
End Frame.

Section SimulateDrive.
Context {G : Type} `{RS : RandomSource G}.

Lemma simulate_drive_fuel_mono fuel fuel' start (t : FootballTeam) (g : G) :
  (fuel <= fuel')%nat ->
  simulate_drive fuel start t g <> Timeout ->
  simulate_drive fuel' start t g = simulate_drive fuel start t g.
Proof.
  intros Hle Hr. unfold simulate_drive in *.
  rewrite (drive_loop_fuel_mono fuel fuel'); [reflexivity|exact Hle|].
  intros Ht. rewrite Ht in Hr. by apply Hr.
Qed.

Lemma drive_fuel_enough (start : Q) (fuel : nat) :
  (drive_fuel start <= fuel)%nat ->
  (4 * Qceiling ((100 - start) * (1 # 10)) <= Z.of_nat fuel)%Z.
Proof. unfold drive_fuel. lia. Qed.

(** Every drive ends, whatever the team and the draws.  The result is
    the same for every fuel from [drive_fuel start] on. *)
Lemma simulate_drive_total (start : Q) (t : FootballTeam) (g : G) :
  exists t' g' plays,
    (forall fuel, (drive_fuel start <= fuel)%nat ->
                  simulate_drive fuel start t g = Done (t', g'))
    /\ drive_data t' = drive_data t ++ [plays]
    /\ has_completed_a_possession t' = true
    /\ drive_continues t' = false
    /\ Forall in_drive_record plays
    /\ (exists y', first_down_yards_needed t' = Num y')
    /\ (start < 100 ->
        (length plays <= 4 * (renewals plays + 1))%nat
        /\ inject_Z (Z.of_nat (renewals plays)) * 10 + start < 100
        /\ sets_spaced start (tail plays)
        /\ exists p rest, plays = p :: rest /\ Play.down p = 0%Z
                          /\ Play.field_position p = start).
Proof.
  set (t0 := reset_series (set_field_position start t)).
  assert (Hy0 : first_down_yards_needed t0 = Num 10) by reflexivity.
  assert (Hd0 : downs_completed t0 = 0%Z) by reflexivity.
  assert (Hf0 : field_position t0 = start) by reflexivity.
  destruct (Qlt_le_dec start 100) as [Hlt|Hge].
  - assert (Hser : series_start t0 10 == start).
    { unfold series_start. rewrite Hf0. lra. }
    assert (Hsl : sets_left t0 10 = Qceiling ((100 - start) * (1 # 10))).
    { unfold sets_left. apply Qceiling_comp. rewrite Hser. reflexivity. }
    assert (Hs0 : series_start t0 10 < 100) by (rewrite Hser; exact Hlt).
    assert (Hc0 : drive_continues t0 = true).
    { apply drive_continues_true. rewrite Hd0, Hf0. split; [lia|done]. }
    destruct (drive_loop_total (drive_fuel start) t0 g [] 10 Hy0
                ltac:(lia) Hs0)
      as (t' & g' & plays & Hrun & Hend & Hhead & Hlen & Hren & Hall & Hy'
          & Hsp).
    { rewrite Hsl, Hd0. pose proof (drive_fuel_enough start _ (le_n _)). lia. }
    simpl in Hrun.
    exists (update_drive_data plays (set_has_completed_possession true t')),
           g', plays.
    split.
    { intros fuel Hfuel. unfold simulate_drive. fold t0.
      rewrite (drive_loop_fuel_mono (drive_fuel start) fuel);
        [|exact Hfuel|by rewrite Hrun].
      rewrite Hrun. reflexivity. }
    pose proof (drive_loop_frame _ _ _ _ _ _ _ Hrun) as Hfr.
    assert (Hdata : drive_data t' = drive_data t0) by apply Hfr.
    rewrite Hc0 in Hhead. destruct Hhead as (p & rest & -> & Hp & Hpf).
    repeat split; eauto.
    + simpl. rewrite Hdata. reflexivity.
    + specialize (Hlen Hc0). rewrite Hd0 in Hlen. lia.
    + rewrite <- Hser. exact Hren.
    + eapply sets_spaced_proper; [exact Hser|exact Hsp].
  - assert (Hc0 : drive_continues t0 = false).
    { apply drive_continues_false. right. by rewrite Hf0. }
    exists (update_drive_data [] (set_has_completed_possession true t0)),
           g, [].
    split.
    { intros fuel _. unfold simulate_drive. fold t0.
      rewrite drive_loop_stops by done. reflexivity. }
    repeat split; eauto;
      apply (Qle_not_lt _ _ Hge) in H; contradiction.
Qed.
End SimulateDrive.

(** ** Theorems on drives *)

Section DriveTheorems.
Context {G : Type} `{RS : RandomSource G}.

(** A drive that returned did so with the result of
    [simulate_drive_total]. *)
Lemma simulate_drive_done fuel start (t : FootballTeam) (g : G) t' g' :
  simulate_drive fuel start t g = Done (t', g') ->
  exists plays,
    drive_data t' = drive_data t ++ [plays]
    /\ has_completed_a_possession t' = true
    /\ drive_continues t' = false
    /\ Forall in_drive_record plays
    /\ (exists y', first_down_yards_needed t' = Num y').
Proof.
  intros Hrun.
  destruct (simulate_drive_total start t g)
    as (t2 & g2 & plays & Hall & Hdata & Hdone & Hend & Hrec & Hy & _).
  assert (Heq : Done (t2, g2) = Done (t', g')).
  { rewrite <- (Hall (max fuel (drive_fuel start))) by lia.
    rewrite <- Hrun. apply simulate_drive_fuel_mono; [lia|].
    by rewrite Hrun. }
  injection Heq as <- <-. exists plays. auto.
Qed.


(** C6 (amended).  In every drive each play starts with 0, 1, 2 or 3
    downs completed.  A run play at three downs completed that stays
    short of the goal line and brings the yards needed to 0 or below
    resets the downs to 0 and the yards needed to 10, keeps the position
    reached, and the drive continues; every other play at three downs
    completed (a kick, a touchdown, a run that falls short) ends the
    drive. *)
Theorem last_down_play_renews_or_ends :
  (forall fuel start (t : FootballTeam) (g : G) t' g',
      simulate_drive fuel start t g = Done (t', g') ->
      exists plays,
        drive_data t' = drive_data t ++ [plays]
        /\ Forall (fun p => (0 <= Play.down p <= 3)%Z) plays)
  /\ (forall (t : FootballTeam) (g : G) (y : Q),
        downs_completed t = 3%Z ->
        first_down_yards_needed t = Num y ->
        exists p t' g',
          next_play t g = Ok (p, t', g')
          /\ Play.down p = 3%Z
          /\ (forall gain,
                 Play.play_type p = Some "run_play"%string ->
                 Play.yards_gained p = Some gain ->
                 field_position t + gain < 100 ->
                 y - gain <= 0 ->
                 downs_completed t' = 0%Z
                 /\ first_down_yards_needed t' = Num 10
                 /\ field_position t' = field_position t + gain
                 /\ drive_continues t' = true)
          /\ (Play.play_type p <> Some "run_play"%string
              \/ (exists gain,
                     Play.yards_gained p = Some gain
                     /\ (100 <= field_position t + gain \/ 0 < y - gain)) ->
              drive_continues t' = false)).
Proof.
  split.
  - intros fuel start t g t' g' Hrun.
    destruct (simulate_drive_done _ _ _ _ _ _ Hrun)
      as (plays & Hdata & _ & _ & Hrec & _).
    exists plays. split; [exact Hdata|].
    eapply Forall_impl; [exact Hrec|]. by intros p [Hp _].
  - intros t g y Hd Hy.
    destruct (next_play_effect t g y Hy)
      as (p & t' & g' & k & Hplay & He & Hk & Hpd & Hpf & Hpy & Hty).
    exists p, t', g'. split; [exact Hplay|]. split; [congruence|].
    inversion He as [gain t1' Htd Hf1 Hd1 Hy1
                    |gain y0 t1' Hy0 Hlt Hconv Hf1 Hd1 Hy1
                    |gain y0 t1' Hy0 Hlt Hshort Hf1 Hd1 Hy1
                    |t1' Hf1 Hd1 Hy1]; subst; simpl in Hty.
    + destruct Hty as [Hrunp Hg]. split.
      * intros gain' _ Hg' Hlt _. rewrite Hg in Hg'. injection Hg' as <-.
        exfalso. apply (Qlt_not_le _ _ Hlt Htd).
      * intros _. apply drive_continues_false. right. by rewrite Hf1.
    + destruct Hty as [Hrunp Hg].
      rewrite Hy in Hy0. injection Hy0 as <-. split.
      * intros gain' _ Hg' _ _. rewrite Hg in Hg'. injection Hg' as <-.
        repeat split; auto.
        apply drive_continues_true. rewrite Hd1, Hf1. split; [lia|done].
      * intros [Hne|(gain' & Hg' & Hor)]; [congruence|].
        rewrite Hg in Hg'. injection Hg' as <-.
        destruct Hor as [Hor|Hor]; exfalso.
        -- apply (Qlt_not_le _ _ Hlt Hor).
        -- apply (Qlt_not_le _ _ Hor Hconv).
    + destruct Hty as [Hrunp Hg].
      rewrite Hy in Hy0. injection Hy0 as <-. split.
      * intros gain' _ Hg' _ Hle. rewrite Hg in Hg'. injection Hg' as <-.
        exfalso. apply (Qlt_not_le _ _ Hshort Hle).
      * intros _. apply drive_continues_false. left. lia.
    + split.
      * intros gain' Hrunp. destruct Hty as [Hty|Hty]; congruence.
      * intros _. apply drive_continues_false. left. lia.
Qed.
End DriveTheorems.

(** C6 (counterexample).  Default team, three downs completed at position
    95 with one yard to go: the run play gains 6, more than the yard
    needed, and scores; the downs are not reset and the drive is over. *)
Lemma last_down_touchdown_does_not_renew :
  ~ renews_on_enough_gain (RS := list_source)
      (drive_state 3 95 1 (default_team "a")) [6].
Proof.
  intros H.
  destruct (H (Play.set_points_from_play 7
                 (Play.set_yards_gained 6
                    (get_play_conditions_dict (Some "run_play"%string)
                       (drive_state 3 95 1 (default_team "a")))))
              (update_score 7
                 (drive_state 4 (95 + 6) 1 (default_team "a")))
              [] 1 6) as (Hd & _); try reflexivity.
  - discriminate.
  - discriminate Hd.
Qed.

(** The state of the counterexample is reached in a drive: from position
    86 three gains of 3 leave one yard to go at 95 on the last down; the
    fourth play gains 6, scores, and is the last play of the drive. *)
Lemma drive_from_86_scores_on_last_down :
  exists t' p1 p2 p3 p4,
    simulate_drive (RS := list_source) 4 86 (default_team "a") [3; 3; 3; 6]
    = Done (t', [])
    /\ drive_data t' = [[p1; p2; p3; p4]]
    /\ Play.down p4 = 3%Z
    /\ Play.field_position p4 = 95
    /\ Play.yards_to_first_down p4 = Num 1
    /\ Play.yards_gained p4 = Some 6
    /\ Play.points_from_play p4 = Some 7%Z
    /\ downs_completed t' = 4%Z
    /\ first_down_yards_needed t' = Num 1.
Proof. do 5 eexists. vm_compute. repeat split. Qed.

(** ** The ten-yard drive *)

Section TenYards.
Context {G : Type} `{RS : RandomSource G}.
Variable t : FootballTeam.
Hypothesis sample_ten :
  forall g, (triangular (min_yards t) (exp_yards t) (max_yards t) g).1 = 10.
Hypothesis no_two : go_for_two t = false.





End TenYards.

(** ** The yards needed of a fresh team *)

Section FreshTeam.
Context {G : Type} `{RS : RandomSource G}.

End FreshTeam.

(** ** The fourth-down decision *)

Section FourthDown.
Context {G : Type} `{RS : RandomSource G}.

Lemma fourth_down_decision_policy (t : FootballTeam) (g : G) (y : Q) :
  first_down_yards_needed t = Num y ->
  fourth_down_decision t g
  = match fourth_down_policy t y with
    | Convert => run_play t g
    | FieldGoal => Ok (kick_field_goal t g)
    | PuntAway => Ok (punt t g)
    end.
Proof.
  intros Hy.
  unfold fourth_down_decision, fourth_down_policy, meets_fouth_down_criteria.
  rewrite Hy.
  destruct (need_touchdown t); simpl; [reflexivity|].
  destruct (Qlt_bool (fourth_down_position_thresh t) (field_position t));
    simpl; [destruct (Qlt_bool y (fourth_down_yard_thresh t)); simpl;
            [reflexivity|]|];
    (destruct (Qlt_bool (55 # 100) (get_field_goal_probability t));
     [reflexivity|]); by destruct (need_score t).
Qed.

(** C5.  With three downs completed the drive loop takes the fourth-down
    decision, which follows the order: (1) a run play when the team needs a
    touchdown, or when the position exceeds the position threshold and the
    yards needed are below the yard threshold; (2) else a field goal when
    its probability at the position exceeds 0.55; (3) else a run play when
    the team needs any score; (4) else a punt.  Needing a touchdown gives
    the run play whatever the thresholds and the yards needed. *)
Theorem fourth_down_decision_order (t : FootballTeam) (g : G) (y : Q) :
  first_down_yards_needed t = Num y ->
  let short_and_in_range :=
    fourth_down_position_thresh t < field_position t
    /\ y < fourth_down_yard_thresh t in
  let in_field_goal_range := 55 # 100 < get_field_goal_probability t in
  (downs_completed t = 3%Z -> next_play t g = fourth_down_decision t g)
  /\ (need_touchdown t = true \/ short_and_in_range ->
      fourth_down_decision t g = run_play t g)
  /\ (need_touchdown t = false -> ~ short_and_in_range ->
      in_field_goal_range ->
      fourth_down_decision t g = Ok (kick_field_goal t g))
  /\ (need_touchdown t = false -> ~ short_and_in_range ->
      ~ in_field_goal_range -> need_score t = true ->
      fourth_down_decision t g = run_play t g)
  /\ (need_touchdown t = false -> ~ short_and_in_range ->
      ~ in_field_goal_range -> need_score t = false ->
      fourth_down_decision t g = Ok (punt t g))
  /\ (forall t0 : FootballTeam,
         need_touchdown t0 = true ->
         fourth_down_decision t0 g = run_play t0 g).
Proof.
  intros Hy short_and_in_range in_field_goal_range.
  split.
  { intros Hd. unfold next_play. by rewrite Hd. }
  rewrite (fourth_down_decision_policy t g y Hy).
  unfold fourth_down_policy.
  assert (Hs : Qlt_bool (fourth_down_position_thresh t) (field_position t)
               && Qlt_bool y (fourth_down_yard_thresh t) = true
               <-> short_and_in_range).
  { unfold short_and_in_range.
    rewrite andb_true_iff, !Qlt_bool_iff. reflexivity. }
  assert (Hf : Qlt_bool (55 # 100) (get_field_goal_probability t) = true
               <-> in_field_goal_range).
  { apply Qlt_bool_iff. }
  destruct (need_touchdown t); simpl.
  - repeat split; try discriminate; try reflexivity.
    intros t0 Htd0. unfold fourth_down_decision. by rewrite Htd0.
  - destruct (Qlt_bool (fourth_down_position_thresh t) (field_position t)
              && Qlt_bool y (fourth_down_yard_thresh t)) eqn:Es.
    + assert (short_and_in_range) by (by apply Hs).
      repeat split; try reflexivity; try contradiction.
      intros t0 Htd0. unfold fourth_down_decision. by rewrite Htd0.
    + assert (~ short_and_in_range).
      { intros Hc. apply Hs in Hc. discriminate. }
      destruct (Qlt_bool (55 # 100) (get_field_goal_probability t)) eqn:Ef.
      * assert (in_field_goal_range) by (by apply Hf).
        repeat split; try reflexivity; try contradiction.
        -- intros [Hc|Hc]; [discriminate|contradiction].
        -- intros t0 Htd0. unfold fourth_down_decision. by rewrite Htd0.
      * assert (~ in_field_goal_range).
        { intros Hc. apply Hf in Hc. discriminate. }
        destruct (need_score t); repeat split; try reflexivity;
          try contradiction; try discriminate;
          try (intros [Hc|Hc]; [discriminate|contradiction]);
          intros t0 Htd0; unfold fourth_down_decision; by rewrite Htd0.
Qed.
End FourthDown.

(** ** The possession transition *)

Section Transition.
Context {G : Type} `{RS : RandomSource G}.

Lemma get_last_play_snoc (t : FootballTeam) (dfs : list DataFrame)
    (df : DataFrame) :
  drive_data t = dfs ++ [df] ->
  get_last_play t = match last df with
                    | Some p => Ok p
                    | None => Raise IndexError
                    end.
Proof. intros Hd. unfold get_last_play. by rewrite Hd, last_snoc. Qed.

(** The keys that the three plays always set. *)
Lemma punt_keys (t : FootballTeam) (g : G) :
  exists d o, Play.punt_distance (punt t g).1.1 = Some d
              /\ Play.opponent_position (punt t g).1.1 = Some o
              /\ Play.points_from_play (punt t g).1.1 = Some 0%Z
              /\ Play.play_type (punt t g).1.1 = Some "punt"%string.
Proof.
  unfold punt. destruct (normal _ _ g) as [d g1]. simpl. eauto 6.
Qed.

Lemma kick_field_goal_keys (t : FootballTeam) (g : G) :
  exists b z, Play.yards_gained (kick_field_goal t g).1.1 = Some (-5)
              /\ Play.made_kick (kick_field_goal t g).1.1 = Some b
              /\ Play.points_from_play (kick_field_goal t g).1.1 = Some z
              /\ Play.play_type (kick_field_goal t g).1.1
                 = Some "field_goal"%string.
Proof.
  unfold kick_field_goal. destruct (uniform g) as [u g1]. simpl. eauto 6.
Qed.

Lemma run_play_keys (t : FootballTeam) (g : G) p t' g' :
  run_play t g = Ok (p, t', g') ->
  exists gain z, Play.yards_gained p = Some gain
                 /\ Play.points_from_play p = Some z
                 /\ Play.play_type p = Some "run_play"%string.
Proof.
  unfold run_play. destruct (simulate_play_yards t g) as [gain g1]. simpl.
  destruct (check_touchdown _).
  - destruct (touch_down_conversion _ g1) as [bonus g2].
    intros [= <- _ _]. simpl. eauto.
  - destruct (update_yards_to_firstdown _ _); simpl; [|discriminate].
    intros [= <- _ _]. simpl. eauto.
Qed.

(** C7.  The next starting position is read off the last play of the drive
    that just ended: 25 after a play that scored; after a punt the
    opponent position computed by the punt, which is 25 when the landing
    spot (position plus punt distance) is beyond 100 and 100 minus the
    landing spot otherwise; else 100 minus the sum of the position before
    the play and the yards gained on it.  A missed field goal records -5
    yards gained, so that a miss from position 70 gives 35. *)
Theorem next_start_from_last_play (t : FootballTeam) (p : Play.t)
    (points : Z) :
  get_last_play t = Ok p ->
  Play.points_from_play p = Some points ->
  ((0 < points)%Z -> determine_opponent_position t = Ok 25)
  /\ ((points <= 0)%Z -> Play.play_type p = Some "punt"%string ->
      forall o, Play.opponent_position p = Some o ->
                determine_opponent_position t = Ok o)
  /\ ((points <= 0)%Z -> Play.play_type p <> Some "punt"%string ->
      forall yards, Play.yards_gained p = Some yards ->
        determine_opponent_position t
        = Ok (100 - (Play.field_position p + yards)))
  /\ (forall (t0 : FootballTeam) (g : G),
         exists d landing,
           Play.play_type (punt t0 g).1.1 = Some "punt"%string
           /\ Play.points_from_play (punt t0 g).1.1 = Some 0%Z
           /\ Play.punt_distance (punt t0 g).1.1 = Some d
           /\ landing == field_position t0 + d
           /\ (100 < landing ->
               Play.opponent_position (punt t0 g).1.1 = Some 25)
           /\ (landing <= 100 ->
               Play.opponent_position (punt t0 g).1.1
               = Some (100 - landing)))
  /\ (forall (t0 : FootballTeam) (g : G),
         Play.field_position (kick_field_goal t0 g).1.1 = field_position t0
         /\ Play.yards_gained (kick_field_goal t0 g).1.1 = Some (-5)
         /\ Play.play_type (kick_field_goal t0 g).1.1
            = Some "field_goal"%string
         /\ (Play.made_kick (kick_field_goal t0 g).1.1 = Some false ->
             Play.points_from_play (kick_field_goal t0 g).1.1 = Some 0%Z))
  /\ (forall (t0 : FootballTeam) (g : G),
         field_position t0 = 70 ->
         Play.made_kick (kick_field_goal t0 g).1.1 = Some false ->
         determine_opponent_position
           (update_drive_data [(kick_field_goal t0 g).1.1]
                              (kick_field_goal t0 g).1.2)
         = Ok 35)
  /\ (forall fuel start (t0 : FootballTeam) (g : G) t' g',
         simulate_drive fuel start t0 g = Done (t', g') ->
         exists plays,
           drive_data t' = drive_data t0 ++ [plays]
           /\ get_last_play t' = match last plays with
                                 | Some p => Ok p
                                 | None => Raise IndexError
                                 end).
Proof.
  intros Hlast Hpoints.
  unfold determine_opponent_position. rewrite Hlast. simpl.
  rewrite Hpoints. simpl.
  split.
  { intros Hpos. apply Z.ltb_lt in Hpos. by rewrite Hpos. }
  split.
  { intros Hpos Hty o Ho. apply Z.ltb_ge in Hpos. rewrite Hpos, Hty, Ho.
    reflexivity. }
  split.
  { intros Hpos Hty yards Hyd. apply Z.ltb_ge in Hpos. rewrite Hpos.
    rewrite bool_decide_eq_false_2 by exact Hty. by rewrite Hyd. }
  split.
  { intros t0 g. unfold punt. destruct (normal _ _ g) as [d g1]. simpl.
    exists d, (d + field_position t0). repeat split.
    - apply Qplus_comm.
    - intros Hl. apply Qle_bool_false in Hl. by rewrite Hl.
    - intros Hl. apply Qle_bool_iff in Hl. by rewrite Hl. }
  split.
  { intros t0 g. unfold kick_field_goal. destruct (uniform g) as [u g1].
    destruct (Qle_bool u (get_field_goal_probability t0)) eqn:Hu; simpl;
      repeat split; auto.
    unfold get_field_goal_probability in *. simpl. rewrite Hu. discriminate. }
  split.
  { intros t0 g Hfp. unfold kick_field_goal. destruct (uniform g) as [u g1].
    destruct (Qle_bool u (get_field_goal_probability t0)) eqn:Hu; simpl.
    - unfold get_field_goal_probability in *. simpl. rewrite Hu. discriminate.
    - intros _. unfold get_last_play. simpl. rewrite last_snoc. simpl.
      rewrite Hfp. reflexivity. }
  intros fuel start t0 g t' g' Hrun.
  destruct (simulate_drive_done _ _ _ _ _ _ Hrun) as (plays & Hdata & _).
  exists plays. split; [exact Hdata|].
  by apply get_last_play_snoc with (dfs := drive_data t0).
Qed.
End Transition.

(** ** Winner and game summary *)

(** C3.  The guard [not self.check_for_winner] tests a bound method, which
    is true, so its branch is never taken: [set_winning_team] never prints
    "No winner yet!", for any game, also one in which [check_for_winner]
    is false.  Whenever the scores differ it makes the team with the higher
    score the winner and the other team the loser. *)
Theorem set_winning_team_guard_is_dead (gm : FootballGame) :
  let s1 := score (ball_first_team gm) in
  let s2 := score (ball_second_team gm) in
  negb (truthy (PyBoundMethod "check_for_winner")) = false
  /\ ("No winner yet!"%string ∉ (set_winning_team gm).2)
  /\ ((s2 < s1)%Z ->
      winner (set_winning_team gm).1 = Some ball_first
      /\ loser (set_winning_team gm).1 = Some ball_second)
  /\ ((s1 < s2)%Z ->
      winner (set_winning_team gm).1 = Some ball_second
      /\ loser (set_winning_team gm).1 = Some ball_first)
  /\ (s1 <> s2 ->
      exists w l,
        winner (set_winning_team gm).1 = Some w
        /\ loser (set_winning_team gm).1 = Some l
        /\ w <> l
        /\ (score (deref gm l) < score (deref gm w))%Z)
  /\ ball_first_team (set_winning_team gm).1 = ball_first_team gm
  /\ ball_second_team (set_winning_team gm).1 = ball_second_team gm
  /\ game_data (set_winning_team gm).1 = game_data gm.
Proof.
  intros s1 s2. unfold set_winning_team. simpl. fold s1 s2.
  split; [reflexivity|].
  destruct (s2 <? s1)%Z eqn:H21; [apply Z.ltb_lt in H21|apply Z.ltb_ge in H21].
  - simpl. repeat split; try (intros; lia).
    + apply not_elem_of_nil.
    + intros _. exists ball_first, ball_second. by repeat split.
  - destruct (s1 <? s2)%Z eqn:H12;
      [apply Z.ltb_lt in H12|apply Z.ltb_ge in H12].
    + simpl. repeat split; try (intros; lia).
      * apply not_elem_of_nil.
      * intros _. exists ball_second, ball_first. by repeat split.
    + simpl. repeat split; try (intros; lia).
      intros Hin. apply list_elem_of_singleton in Hin. discriminate.
Qed.

(** [set_winning_team] on a game whose scores differ. *)
Lemma set_winning_team_guard_free (gm : FootballGame) :
  score (ball_first_team gm) <> score (ball_second_team gm) ->
  (set_winning_team gm).2 = []
  /\ (exists w l,
        winner (set_winning_team gm).1 = Some w
        /\ loser (set_winning_team gm).1 = Some l
        /\ w <> l
        /\ (score (deref gm l) < score (deref gm w))%Z)
  /\ ball_first_team (set_winning_team gm).1 = ball_first_team gm
  /\ ball_second_team (set_winning_team gm).1 = ball_second_team gm
  /\ game_data (set_winning_team gm).1 = game_data gm.
Proof.
  intros Hne. unfold set_winning_team. simpl.
  destruct (_ <? _)%Z eqn:H21; [apply Z.ltb_lt in H21|apply Z.ltb_ge in H21].
  - simpl. repeat split. exists ball_first, ball_second. by repeat split.
  - destruct (_ <? _)%Z eqn:H12;
      [apply Z.ltb_lt in H12|apply Z.ltb_ge in H12]; [|lia].
    simpl. repeat split. exists ball_second, ball_first. by repeat split.
Qed.

(** What [update_game_data] stores under the two score keys of a game with
    a winner: the key "winner_score" ends with the loser's score, and the
    key "loser_score" is never written. *)
Lemma update_game_data_scores (gm gm' : FootballGame) (w : side) :
  winner gm = Some w ->
  update_game_data gm = Ok gm' ->
  exists l,
    loser gm = Some l
    /\ game_data gm' !! "winner_score"%string = Some (VInt (score (deref gm l)))
    /\ game_data gm' !! "loser_score"%string
       = game_data gm !! "loser_score"%string
    /\ ball_first_team gm' = ball_first_team gm
    /\ ball_second_team gm' = ball_second_team gm
    /\ winner gm' = winner gm
    /\ loser gm' = loser gm.
Proof.
  intros Hw. unfold update_game_data. rewrite Hw.
  destruct (pd_concat (get_drive_data (deref gm w))) as [wdf|]; simpl;
    [|discriminate].
  destruct (loser gm) as [l|] eqn:Hl; simpl; [|discriminate].
  destruct (pd_concat (get_drive_data (deref gm l))) as [ldf|]; simpl;
    [|discriminate].
  destruct (sum_yards_gained wdf) as [yw|]; simpl; [|discriminate].
  destruct (sum_yards_gained ldf) as [yl|]; simpl; [|discriminate].
  intros [= <-]. exists l. simpl.
  split; [reflexivity|].
  split; [by simplify_map_eq|].
  split; [by simplify_map_eq|].
  repeat split; assumption.
Qed.

(** C2 (the code at a failing input).  Two default teams, every draw the
    centre of its distribution: the first team wins 14 to 7.  The summary
    holds 7, the loser's score, under "winner_score" and has no entry
    "loser_score". *)
Theorem summary_winner_score_holds_loser_score :
  exists gm,
    simulate_new_game (RS := mode_source) 20
      "receiving_team" false "kicking_team" false tt = Done (gm, tt, [])
    /\ winner gm = Some ball_first
    /\ loser gm = Some ball_second
    /\ score (ball_first_team gm) = 14%Z
    /\ score (ball_second_team gm) = 7%Z
    /\ game_data gm !! "winner_score"%string = Some (VInt 7)
    /\ game_data gm !! "loser_score"%string = None.
Proof.
  eexists. split; [vm_compute; reflexivity|].
  repeat split; vm_compute; reflexivity.
Qed.

(** ** The sudden-death loop *)

Section SuddenDeath.
Context {G : Type} `{RS : RandomSource G}.

Lemma sudden_death_unfold fuel start (gm : FootballGame) (g : G) :
  sudden_death fuel start gm g =
  if negb (check_for_winner gm) then
    match fuel with
    | O => Timeout
    | S fuel' =>
        '(gm, g) ← first_team_drive fuel start gm g;
        if check_for_winner gm then Done (gm, g)
        else
          start ← lift (determine_opponent_position (ball_first_team gm));
          '(gm, g) ← second_team_drive fuel start gm g;
          start ← lift (determine_opponent_position (ball_second_team gm));
          sudden_death fuel' start gm g
    end
  else Done (gm, g).
Proof. destruct fuel; reflexivity. Qed.

(** The loop is left only with a winner: both exits test
    [check_for_winner]. *)
Lemma sudden_death_exit fuel :
  forall start (gm : FootballGame) (g : G) gm' g',
    sudden_death fuel start gm g = Done (gm', g') ->
    check_for_winner gm' = true.
Proof.
  induction fuel as [|fuel IH]; intros start gm g gm' g';
    rewrite sudden_death_unfold;
    destruct (check_for_winner gm) eqn:Hc; simpl;
    try discriminate; try (by intros [= <- <-]).
  destruct (first_team_drive _ start gm g) as [[gm1 g1]| |]; simpl;
    try discriminate.
  destruct (check_for_winner gm1) eqn:Hc1; [by intros [= <- <-]|].
  destruct (determine_opponent_position (ball_first_team gm1)) as [s1|];
    simpl; try discriminate.
  destruct (second_team_drive _ s1 gm1 g1) as [[gm2 g2]| |]; simpl;
    try discriminate.
  destruct (determine_opponent_position (ball_second_team gm2)) as [s2|];
    simpl; try discriminate.
  apply IH.
Qed.

Lemma check_for_winner_scores (gm : FootballGame) :
  check_for_winner gm = true ->
  score (ball_first_team gm) <> score (ball_second_team gm).
Proof.
  unfold check_for_winner. rewrite andb_true_iff, negb_true_iff, Z.eqb_neq.
  by intros [_ H].
Qed.

(** A game that returns has a winner and a loser with different scores. *)
Lemma simulate_game_done fuel (gm : FootballGame) (g : G) gm' g' printed :
  simulate_game fuel gm g = Done (gm', g', printed) ->
  check_for_winner gm' = true
  /\ printed = []
  /\ exists w l,
      winner gm' = Some w /\ loser gm' = Some l /\ w <> l
      /\ (score (deref gm' l) < score (deref gm' w))%Z.
Proof.
  unfold simulate_game.
  destruct (regulation fuel gm g) as [[[s0 gm0] g0]| |]; simpl;
    try discriminate.
  destruct (sudden_death fuel s0 gm0 g0) as [[gm1 g1]| |] eqn:Hsd; simpl;
    try discriminate.
  apply sudden_death_exit in Hsd.
  pose proof (check_for_winner_scores gm1 Hsd) as Hne.
  destruct (set_winning_team_guard_free gm1)
    as (Hpr & Hw & Hf & Hs & Hd); [exact Hne|].
  destruct (set_winning_team gm1) as [gm2 pr]. simpl in *.
  destruct Hw as (w & l & Hw & Hl & Hwl & Hlt).
  destruct (update_game_data gm2) as [gm3|] eqn:Hup; simpl; [|discriminate].
  intros [= <- <- <-].
  destruct (update_game_data_scores gm2 gm3 w Hw Hup)
    as (l' & Hl' & _ & _ & Hf3 & Hs3 & Hw3 & Hl3).
  split.
  { unfold check_for_winner in *. by rewrite Hf3, Hs3, Hf, Hs. }
  split; [exact Hpr|].
  exists w, l. rewrite Hw3, Hl3. repeat split; auto.
  assert (Hderef : forall s, deref gm3 s = deref gm1 s).
  { intros [|]; simpl; congruence. }
  by rewrite !Hderef.
Qed.
End SuddenDeath.

(** ** Games that never end *)

Lemma stalled_drive (fuel : nat) (t : FootballTeam) (start next : Q) :
  stalled t ->
  (start = 25 /\ next = 30) \/ (start = 30 /\ next = 25) ->
  simulate_drive (RS := mode_source) fuel start t tt = Timeout
  \/ exists t',
      simulate_drive (RS := mode_source) fuel start t tt = Done (t', tt)
      /\ stalled t'
      /\ determine_opponent_position t' = Ok next.
Proof.
  intros Hst Hstart. destruct t. unfold stalled in Hst. simpl in Hst.
  destruct Hst as (-> & -> & -> & -> & -> & ->).
  destruct (le_lt_dec 4 fuel) as [Hfuel|Hfuel].
  - right.
    destruct Hstart as [[-> ->]|[-> ->]].
    + eexists. split.
      { rewrite (simulate_drive_fuel_mono 4 fuel) by (done || lia).
        vm_compute. reflexivity. }
      split; [by repeat split|].
      unfold determine_opponent_position.
      erewrite get_last_play_snoc by reflexivity. reflexivity.
    + eexists. split.
      { rewrite (simulate_drive_fuel_mono 4 fuel) by (done || lia).
        vm_compute. reflexivity. }
      split; [by repeat split|].
      unfold determine_opponent_position.
      erewrite get_last_play_snoc by reflexivity. reflexivity.
  - left.
    destruct Hstart as [[-> ->]|[-> ->]];
      destruct fuel as [|[|[|[|fuel]]]]; try lia; reflexivity.
Qed.

Lemma stalled_no_winner (gm : FootballGame) :
  stalled (ball_first_team gm) -> stalled (ball_second_team gm) ->
  check_for_winner gm = false.
Proof.
  intros (_ & _ & _ & _ & _ & H1) (_ & _ & _ & _ & _ & H2).
  unfold check_for_winner. rewrite H1, H2. simpl. apply andb_false_r.
Qed.

(** Two stalled teams trade punts for ever: the loop does not return,
    whatever the fuel. *)
Lemma stalled_sudden_death (fuel : nat) :
  forall gm : FootballGame,
    stalled (ball_first_team gm) -> stalled (ball_second_team gm) ->
    sudden_death (RS := mode_source) fuel 25 gm tt = Timeout.
Proof.
  induction fuel as [|fuel IH]; intros gm H1 H2;
    rewrite sudden_death_unfold, (stalled_no_winner gm H1 H2); simpl;
    [reflexivity|].
  unfold first_team_drive.
  destruct (stalled_drive (S fuel) (ball_first_team gm) 25 30 H1)
    as [->|(t1 & -> & Hst1 & Hopp1)]; [by left|reflexivity|].
  simpl.
  rewrite (stalled_no_winner (with_ball_first_team t1 gm)) by done.
  rewrite Hopp1. simpl.
  unfold second_team_drive. simpl.
  destruct (stalled_drive (S fuel) (ball_second_team gm) 30 25 H2)
    as [->|(t2 & -> & Hst2 & Hopp2)]; [by right|reflexivity|].
  simpl. rewrite Hopp2. simpl.
  by apply IH.
Qed.

Lemma stalled_game_times_out (a b : FootballTeam) (fuel : nat) :
  stalled a -> stalled b ->
  simulate_game (RS := mode_source) fuel (FootballGame_init a b) tt
  = Timeout.
Proof.
  intros Ha Hb. unfold simulate_game, regulation, first_team_drive. simpl.
  assert (Ha' : stalled (set_had_ball_first true a)) by exact Ha.
  assert (Hb' : stalled (set_had_ball_first false b)) by exact Hb.
  destruct (stalled_drive fuel (set_had_ball_first true a) 25 30 Ha')
    as [->|(t1 & -> & Hst1 & Hopp1)]; [by left|reflexivity|].
  simpl. rewrite Hopp1. simpl.
  assert (Hs1 : score t1 = 0%Z) by apply Hst1.
  repeat (rewrite Hs1; simpl).
  unfold second_team_drive. simpl.
  destruct (stalled_drive fuel (set_had_ball_first false b) 30 25 Hb')
    as [->|(t2 & -> & Hst2 & Hopp2)]; [by right|reflexivity|].
  simpl. rewrite Hopp2. simpl.
  rewrite stalled_sudden_death; [reflexivity| |];
    simpl; unfold stalled in *; simpl; tauto.
Qed.

(** C1 (counterexample).  Two teams with yardage in [-1, 1], draws at the
    centre of each distribution: no fuel makes [simulate_game] return, with
    a winner or with any other result. *)
Lemma stalled_teams_play_for_ever :
  ~ (exists fuel,
        simulate_game (RS := mode_source) fuel
          (FootballGame_init (stalled_team "a") (stalled_team "b")) tt
        <> Timeout).
Proof.
  intros [fuel H]. apply H.
  apply stalled_game_times_out; by repeat split.
Qed.

(** C1 (amended).  The sudden-death loop has no possession cap: it is left
    only when [check_for_winner] holds.  So whenever [simulate_game]
    returns, both teams have completed a possession, the scores differ and
    a winner and a loser are set, and nothing is printed; there is no "no
    decision" result.  For teams that cannot score the game does not
    return for any fuel. *)
Theorem sudden_death_has_no_possession_cap {G : Type} `{RS : RandomSource G} :
  (forall fuel (gm : FootballGame) (g : G) gm' g' printed,
      simulate_game fuel gm g = Done (gm', g', printed) ->
      check_for_winner gm' = true
      /\ score (ball_first_team gm') <> score (ball_second_team gm')
      /\ printed = []
      /\ exists w l,
          winner gm' = Some w /\ loser gm' = Some l /\ w <> l
          /\ (score (deref gm' l) < score (deref gm' w))%Z)
  /\ (forall (a b : FootballTeam) (fuel : nat),
         stalled a -> stalled b ->
         simulate_game (RS := mode_source) fuel (FootballGame_init a b) tt
         = Timeout).
Proof.
  split.
  - intros fuel gm g gm' g' printed Hrun.
    destruct (simulate_game_done _ _ _ _ _ _ Hrun) as (Hc & Hp & Hw).
    split; [exact Hc|]. split; [by apply check_for_winner_scores|].
    split; [exact Hp|exact Hw].
  - intros a b fuel. apply stalled_game_times_out.
Qed.

(** ** Instances of the theorems on concrete games *)

(** C1 at a game that ends: two default teams, draws at the centre of each
    distribution, fuel 20. *)
Lemma sudden_death_has_no_possession_cap_default_game :
  exists gm,
    simulate_game (RS := mode_source) 20
      (FootballGame_init (default_team "a") (default_team "b")) tt
    = Done (gm, tt, [])
    /\ check_for_winner gm = true
    /\ score (ball_first_team gm) <> score (ball_second_team gm)
    /\ @nil string = []
    /\ exists w l,
        winner gm = Some w /\ loser gm = Some l /\ w <> l
        /\ (score (deref gm l) < score (deref gm w))%Z.
Proof.
  eexists. split; [vm_compute; reflexivity|].
  apply (proj1 (sudden_death_has_no_possession_cap (RS := mode_source))
           20%nat
           (FootballGame_init (default_team "a") (default_team "b"))
           tt _ tt []).
  vm_compute. reflexivity.
Defined.


(** C6 (amended) at a conversion: default team, three downs completed at
    position 50 with one yard to go, a gain of 4; and at the drive of the
    default team from 25. *)
Lemma last_down_play_renews_or_ends_conversion :
  (exists t' plays,
      simulate_drive (RS := mode_source) 20 25 (default_team "a") tt
      = Done (t', tt)
      /\ drive_data t' = drive_data (default_team "a") ++ [plays]
      /\ Forall (fun p => (0 <= Play.down p <= 3)%Z) plays)
  /\ (exists p t' g',
         next_play (RS := list_source)
           (drive_state 3 50 1 (default_team "a")) [4] = Ok (p, t', g')
         /\ downs_completed t' = 0%Z
         /\ first_down_yards_needed t' = Num 10
         /\ field_position t' = 50 + 4
         /\ drive_continues t' = true).
Proof.
  split.
  - assert (Hrun : exists t',
               simulate_drive (RS := mode_source) 20 25 (default_team "a") tt
               = Done (t', tt))
      by (eexists; vm_compute; reflexivity).
    destruct Hrun as [t' Hrun]. exists t'.
    destruct (proj1 (last_down_play_renews_or_ends (RS := mode_source))
                20%nat 25 (default_team "a") tt t' tt Hrun)
      as (plays & Hdata & Hall).
    exists plays. split; [exact Hrun|]. split; [exact Hdata|exact Hall].
  - destruct (proj2 (last_down_play_renews_or_ends (RS := list_source))
                (drive_state 3 50 1 (default_team "a")) [4] 1
                eq_refl eq_refl)
      as (p & t' & g' & Hplay & _ & Hconv & _).
    exists p, t', g'. split; [exact Hplay|].
    vm_compute in Hplay. injection Hplay as <- <- <-.
    apply (Hconv 4); [reflexivity|reflexivity|reflexivity|discriminate].
Defined.



(** C5 at a team on its own 25 with ten yards to go: position and yards
    select the punt, and needing a touchdown turns the punt into a run
    play. *)
Lemma fourth_down_decision_order_at_own_25 :
  let t := drive_state 3 25 10 (default_team "a") in
  fourth_down_decision (RS := mode_source) t tt
  = Ok (punt (RS := mode_source) t tt)
  /\ next_play (RS := mode_source) t tt
     = fourth_down_decision (RS := mode_source) t tt
  /\ fourth_down_decision (RS := mode_source)
       (with_need_touchdown true t) tt
     = run_play (RS := mode_source) (with_need_touchdown true t) tt.
Proof.
  intros t.
  destruct (fourth_down_decision_order (RS := mode_source) t tt 10 eq_refl)
    as (Hloop & _ & _ & _ & Hpunt & _).
  destruct (fourth_down_decision_order (RS := mode_source)
              (with_need_touchdown true t) tt 10 eq_refl)
    as (_ & Hrun & _).
  split.
  - apply Hpunt; try reflexivity.
    + intros [Hc _]. discriminate Hc.
    + intros Hc. discriminate Hc.
  - split; [apply Hloop; reflexivity|].
    apply Hrun. left. reflexivity.
Defined.

(** C7 at a field goal missed from position 70: the uniform draw 0.95 is
    above the probability 0.70 of the kick, and the opponent starts at
    35. *)
Lemma next_start_after_missed_field_goal :
  let kick := kick_field_goal (RS := list_source)
                (drive_state 3 70 10 (default_team "a")) [95 # 100] in
  let t := update_drive_data [kick.1.1] kick.1.2 in
  Play.made_kick kick.1.1 = Some false
  /\ get_last_play t = Ok kick.1.1
  /\ determine_opponent_position t = Ok (100 - (70 + -5))
  /\ determine_opponent_position t = Ok 35.
Proof.
  intros kick t.
  destruct (next_start_from_last_play (RS := list_source) t kick.1.1 0
              eq_refl eq_refl)
    as (_ & _ & Hflip & _ & _ & Hmiss & _).
  split; [reflexivity|]. split; [reflexivity|].
  split.
  - apply (Hflip ltac:(lia) ltac:(discriminate) (-5)). reflexivity.
  - apply (Hmiss (drive_state 3 70 10 (default_team "a")) [95 # 100]);
      reflexivity.
Defined.

(** C3 at a game in which no team has completed a possession and the
    first team leads 3 to 0: [check_for_winner] is false, yet the first
    team is made the winner. *)
Lemma set_winning_team_guard_is_dead_before_any_drive :
  let gm := FootballGame_init (update_score 3 (default_team "a"))
                              (default_team "b") in
  check_for_winner gm = false
  /\ ("No winner yet!"%string ∉ (set_winning_team gm).2)
  /\ winner (set_winning_team gm).1 = Some ball_first
  /\ loser (set_winning_team gm).1 = Some ball_second.
Proof.
  intros gm.
  destruct (set_winning_team_guard_is_dead gm)
    as (_ & Hpr & Hfirst & _).
  split; [reflexivity|]. split; [exact Hpr|].
  apply Hfirst. reflexivity.
Defined.

(** * Further properties of the code *)

(** ** Field-goal range *)

Lemma field_goal_in_range_iff (t : FootballTeam) :
  Qlt_bool (55 # 100) (get_field_goal_probability t) = true
  <-> 57 <= field_position t.
Proof.
  unfold get_field_goal_probability.
  destruct (Qle_bool (100 - field_position t + 17) 40) eqn:H40;
    [apply Qle_bool_iff in H40|apply Qle_bool_false in H40].
  { split; [intros _; lra|reflexivity]. }
  destruct (Qle_bool (100 - field_position t + 17) 50) eqn:H50;
    [apply Qle_bool_iff in H50|apply Qle_bool_false in H50].
  { split; [intros _; lra|reflexivity]. }
  destruct (Qle_bool (100 - field_position t + 17) 60) eqn:H60;
    [apply Qle_bool_iff in H60|apply Qle_bool_false in H60].
  { split; [intros _; lra|reflexivity]. }
  split; [discriminate|]. intros H. exfalso. lra.
Qed.

(** X1.  The field-goal probability in terms of the field position: 0.90
    from position 77 on, 0.70 on [67, 77), 0.60 on [57, 67) and 0 below
    57.  It never decreases as the ball moves forward, and it exceeds the
    0.55 of the fourth-down decision exactly from position 57 on. *)
Theorem field_goal_probability_by_position (t : FootballTeam) :
  let fp := field_position t in
  let p := get_field_goal_probability t in
  (77 <= fp -> p = 90 # 100)
  /\ (67 <= fp -> fp < 77 -> p = 70 # 100)
  /\ (57 <= fp -> fp < 67 -> p = 60 # 100)
  /\ (fp < 57 -> p = 0)
  /\ (55 # 100 < p <-> 57 <= fp)
  /\ (forall t2 : FootballTeam,
         fp <= field_position t2 ->
         p <= get_field_goal_probability t2).
Proof.
  intros fp p.
  assert (Hcases :
            forall s : FootballTeam,
              (77 <= field_position s
               /\ get_field_goal_probability s = 90 # 100)
              \/ (67 <= field_position s < 77
                  /\ get_field_goal_probability s = 70 # 100)
              \/ (57 <= field_position s < 67
                  /\ get_field_goal_probability s = 60 # 100)
              \/ (field_position s < 57
                  /\ get_field_goal_probability s = 0)).
  { intros s. unfold get_field_goal_probability.
    destruct (Qle_bool (100 - field_position s + 17) 40) eqn:H40;
      [apply Qle_bool_iff in H40|apply Qle_bool_false in H40].
    { left. split; [lra|reflexivity]. }
    destruct (Qle_bool (100 - field_position s + 17) 50) eqn:H50;
      [apply Qle_bool_iff in H50|apply Qle_bool_false in H50].
    { right. left. split; [lra|reflexivity]. }
    destruct (Qle_bool (100 - field_position s + 17) 60) eqn:H60;
      [apply Qle_bool_iff in H60|apply Qle_bool_false in H60].
    { right. right. left. split; [lra|reflexivity]. }
    right. right. right. split; [lra|reflexivity]. }
  subst fp p.
  split.
  { intros H. destruct (Hcases t) as [[Hr E]|[[Hr E]|[[Hr E]|[Hr E]]]];
      try exact E; exfalso; lra. }
  split.
  { intros H1 H2. destruct (Hcases t) as [[Hr E]|[[Hr E]|[[Hr E]|[Hr E]]]];
      try exact E; exfalso; lra. }
  split.
  { intros H1 H2. destruct (Hcases t) as [[Hr E]|[[Hr E]|[[Hr E]|[Hr E]]]];
      try exact E; exfalso; lra. }
  split.
  { intros H. destruct (Hcases t) as [[Hr E]|[[Hr E]|[[Hr E]|[Hr E]]]];
      try exact E; exfalso; lra. }
  split.
  { rewrite <- Qlt_bool_iff. apply field_goal_in_range_iff. }
  intros t2 Hle.
  destruct (Hcases t) as [[Hr E]|[[Hr E]|[[Hr E]|[Hr E]]]];
    destruct (Hcases t2) as [[Hr2 E2]|[[Hr2 E2]|[[Hr2 E2]|[Hr2 E2]]]];
    rewrite E, E2; try lra; exfalso; lra.
Qed.

(** ** What a play reports *)

Section PlayReports.
Context {G : Type} `{RS : RandomSource G}.

Lemma touch_down_conversion_points (t : FootballTeam) (g : G) :
  (go_for_two t = false -> touch_down_conversion t g = (1%Z, g))
  /\ (go_for_two t = true ->
      (touch_down_conversion t g).2 = (uniform g).2
      /\ ((touch_down_conversion t g).1 = 2%Z
          \/ (touch_down_conversion t g).1 = 0%Z)
      /\ ((touch_down_conversion t g).1 = 2%Z
          <-> (uniform g).1 <= two_point_conversion_rate t)).
Proof.
  unfold touch_down_conversion.
  destruct (go_for_two t); simpl.
  - split; [discriminate|]. intros _.
    destruct (uniform g) as [u g1]. simpl.
    destruct (Qle_bool u (two_point_conversion_rate t)) eqn:Hu; simpl;
      [apply Qle_bool_iff in Hu|apply Qle_bool_false in Hu].
    + split; [reflexivity|]. split; [by left|]. by split.
    + split; [reflexivity|]. split; [by right|].
      split; [discriminate|]. intros H. exfalso.
      apply (Qlt_not_le _ _ Hu H).
  - split; [reflexivity|discriminate].
Qed.

(** What a run play records and does to the score. *)
Lemma run_play_report (t : FootballTeam) (g : G) p t' g' :
  run_play t g = Ok (p, t', g') ->
  exists pts,
    Play.points_from_play p = Some pts
    /\ score t' = (score t + pts)%Z
    /\ (pts = 0 \/ pts = 6 \/ pts = 7 \/ pts = 8)%Z
    /\ ((0 < pts)%Z <-> 100 <= field_position t')
    /\ (go_for_two t = false -> pts = 0%Z \/ pts = 7%Z)
    /\ (go_for_two t = true -> pts <> 7%Z)
    /\ Play.play_type p = Some "run_play"%string
    /\ Play.down p = downs_completed t
    /\ Play.field_position p = field_position t.
Proof.
  unfold run_play.
  destruct (simulate_play_yards t g) as [gain g1]. simpl.
  unfold check_touchdown. simpl.
  destruct (Qle_bool 100 (field_position t + gain)) eqn:Htd.
  - apply Qle_bool_iff in Htd.
    pose proof (touch_down_conversion_points
                  (with_downs_completed (downs_completed t + 1)
                     (update_field_position gain t)) g1) as Hc.
    simpl in Hc.
    destruct (touch_down_conversion _ g1) as [bonus g2]. simpl in Hc.
    destruct Hc as (Hno & Hyes).
    intros [= <- <- <-]. exists (6 + bonus)%Z. simpl.
    assert (Hb : bonus = 0%Z \/ bonus = 1%Z \/ bonus = 2%Z).
    { destruct (go_for_two t).
      - destruct (Hyes eq_refl) as (_ & [H|H] & _); auto.
      - specialize (Hno eq_refl). injection Hno as ->. auto. }
    split; [reflexivity|]. split; [reflexivity|].
    split; [lia|]. split; [split; [by intros _|lia]|].
    split.
    { intros Hg. specialize (Hno Hg). injection Hno as -> _. by right. }
    split; [|by repeat split].
    intros Hg. destruct (Hyes Hg) as (_ & [H|H] & _); lia.
  - apply Qle_bool_false in Htd.
    destruct (update_yards_to_firstdown _ _) as [t3|] eqn:Hup; simpl;
      [|discriminate].
    intros [= <- <- <-]. exists 0%Z. simpl.
    assert (Hf : field_position t3 = field_position t + gain
                 /\ score t3 = score t).
    { unfold update_yards_to_firstdown in Hup. simpl in Hup.
      destruct (first_down_yards_needed t); [|discriminate].
      destruct (Qle_bool _ 0); injection Hup as <-; by split. }
    destruct Hf as [Hf Hs]. rewrite Hs, Hf.
    split; [reflexivity|]. split; [lia|]. split; [by left|].
    split.
    { split; [lia|]. intros H. exfalso. apply (Qlt_not_le _ _ Htd H). }
    split; [by left|]. split; [discriminate|by repeat split].
Qed.

(** What a field-goal attempt records and does: one uniform draw, made
    when the draw is at most the probability at the position. *)
Lemma kick_field_goal_report (t : FootballTeam) (g : G) :
  let made := Qle_bool (uniform g).1 (get_field_goal_probability t) in
  let pts := if made then 3%Z else 0%Z in
  let p := (kick_field_goal t g).1.1 in
  let t' := (kick_field_goal t g).1.2 in
  (kick_field_goal t g).2 = (uniform g).2
  /\ Play.made_kick p = Some made
  /\ Play.points_from_play p = Some pts
  /\ score t' = (score t + pts)%Z
  /\ field_position t' = field_position t
  /\ downs_completed t' = (downs_completed t + 1)%Z
  /\ first_down_yards_needed t' = first_down_yards_needed t
  /\ Play.yards_gained p = Some (-5)
  /\ Play.play_type p = Some "field_goal"%string
  /\ Play.down p = downs_completed t
  /\ Play.field_position p = field_position t.
Proof.
  unfold kick_field_goal. destruct (uniform g) as [u g1]. simpl.
  destruct (Qle_bool u (get_field_goal_probability t)) eqn:Hu; simpl.
  - unfold get_field_goal_probability in *. simpl. rewrite Hu.
    repeat split.
  - rewrite Hu. repeat split. lia.
Qed.

(** What a punt records and does: one normal draw, no points, and an
    opponent position that is never negative. *)
Lemma punt_report (t : FootballTeam) (g : G) :
  let d := (normal (punt_distance t) (punt_stdv t) g).1 in
  let p := (punt t g).1.1 in
  let t' := (punt t g).1.2 in
  (punt t g).2 = (normal (punt_distance t) (punt_stdv t) g).2
  /\ Play.punt_distance p = Some d
  /\ Play.points_from_play p = Some 0%Z
  /\ Play.yards_gained p = None
  /\ Play.play_type p = Some "punt"%string
  /\ Play.down p = downs_completed t
  /\ Play.field_position p = field_position t
  /\ score t' = score t
  /\ field_position t' = field_position t
  /\ downs_completed t' = (downs_completed t + 1)%Z
  /\ first_down_yards_needed t' = first_down_yards_needed t
  /\ exists o, Play.opponent_position p = Some o
               /\ 0 <= o
               /\ (100 <= o <-> d + field_position t <= 0)
               /\ (100 < d + field_position t -> o = 25).
Proof.
  unfold punt. destruct (normal _ _ g) as [d g1]. simpl.
  repeat split.
  destruct (Qle_bool (d + field_position t) 100) eqn:Hl;
    [apply Qle_bool_iff in Hl|apply Qle_bool_false in Hl];
    eexists; (split; [reflexivity|]).
  - split; [lra|]. split; [split; intros; lra|]. intros H. exfalso. lra.
  - split; [lra|]. split; [split; intros; exfalso; lra|reflexivity].
Qed.
End PlayReports.

(** ** Which play is called on fourth down *)

Section FourthDownCalls.
Context {G : Type} `{RS : RandomSource G}.

(** The three ways [fourth_down_decision] returns. *)
Lemma fourth_down_decision_cases (t : FootballTeam) (g : G) p t' g' :
  fourth_down_decision t g = Ok (p, t', g') ->
  run_play t g = Ok (p, t', g')
  \/ (kick_field_goal t g = (p, t', g')
      /\ need_touchdown t = false
      /\ 57 <= field_position t)
  \/ (punt t g = (p, t', g')
      /\ need_touchdown t = false
      /\ need_score t = false
      /\ field_position t < 57).
Proof.
  unfold fourth_down_decision.
  destruct (need_touchdown t) eqn:Htd; simpl; [by left|].
  destruct (meets_fouth_down_criteria t) as [[|]|]; simpl;
    [by left| |discriminate].
  destruct (Qlt_bool (55 # 100) (get_field_goal_probability t)) eqn:Hfg.
  - apply field_goal_in_range_iff in Hfg.
    intros [= H]. right. left. by repeat split.
  - destruct (need_score t) eqn:Hsc; [by left|].
    intros [= H]. right. right. repeat split; auto.
    apply Qnot_le_lt. intros Hle.
    apply field_goal_in_range_iff in Hle. congruence.
Qed.

(** X2.  A team that needs a touchdown or any score never punts, and a
    team that needs a touchdown never kicks: when [fourth_down_decision]
    returns a punt, neither obligation flag is set and the ball is short of
    position 57; when it returns a field-goal attempt, the team does not
    need a touchdown and the ball is at position 57 or beyond. *)
Theorem fourth_down_call_respects_obligations
    (t : FootballTeam) (g : G) p t' g' :
  fourth_down_decision t g = Ok (p, t', g') ->
  (Play.play_type p = Some "punt"%string ->
   need_touchdown t = false /\ need_score t = false
   /\ field_position t < 57)
  /\ (Play.play_type p = Some "field_goal"%string ->
      need_touchdown t = false /\ 57 <= field_position t)
  /\ (need_touchdown t = true ->
      Play.play_type p = Some "run_play"%string)
  /\ (need_score t = true ->
      Play.play_type p <> Some "punt"%string).
Proof.
  intros Hdec.
  destruct (fourth_down_decision_cases _ _ _ _ _ Hdec)
    as [Hrun|[(Hk & Htd & Hfp)|(Hp & Htd & Hsc & Hfp)]].
  - destruct (run_play_keys _ _ _ _ _ Hrun) as (gain & z & _ & _ & Hty).
    rewrite Hty. repeat split; try discriminate; reflexivity.
  - pose proof (kick_field_goal_report t g) as Hr. simpl in Hr.
    rewrite Hk in Hr. simpl in Hr.
    destruct Hr as (_ & _ & _ & _ & _ & _ & _ & _ & Hty & _).
    rewrite Hty. repeat split; auto; try discriminate; congruence.
  - pose proof (punt_report t g) as Hr. simpl in Hr.
    rewrite Hp in Hr. simpl in Hr.
    destruct Hr as (_ & _ & _ & _ & Hty & _).
    rewrite Hty. repeat split; auto; try discriminate; congruence.
Qed.

(** What the play of the loop body records, whatever the play. *)
Lemma next_play_report (t : FootballTeam) (g : G) p t' g' :
  next_play t g = Ok (p, t', g') ->
  exists pts,
    Play.points_from_play p = Some pts
    /\ score t' = (score t + pts)%Z
    /\ play_points pts
    /\ Play.down p = downs_completed t
    /\ Play.field_position p = field_position t
    /\ ((0 < pts)%Z -> drive_continues t' = false)
    /\ (Play.play_type p = Some "run_play"%string
        /\ pts <> 3%Z
        /\ ((0 < pts)%Z <-> 100 <= field_position t')
        \/ (Play.play_type p = Some "field_goal"%string
            \/ Play.play_type p = Some "punt"%string)
           /\ (2 < downs_completed t)%Z
           /\ (pts = 0%Z \/ pts = 3%Z)
           /\ (Play.play_type p = Some "punt"%string -> pts = 0%Z)
           /\ field_position t' = field_position t
           /\ downs_completed t' = (downs_completed t + 1)%Z).
Proof.
  intros Hplay.
  assert (Hrun : run_play t g = Ok (p, t', g') ->
    exists pts,
      Play.points_from_play p = Some pts
      /\ score t' = (score t + pts)%Z
      /\ play_points pts
      /\ Play.down p = downs_completed t
      /\ Play.field_position p = field_position t
      /\ ((0 < pts)%Z -> drive_continues t' = false)
      /\ (Play.play_type p = Some "run_play"%string
          /\ pts <> 3%Z
          /\ ((0 < pts)%Z <-> 100 <= field_position t')
          \/ (Play.play_type p = Some "field_goal"%string
              \/ Play.play_type p = Some "punt"%string)
             /\ (2 < downs_completed t)%Z
             /\ (pts = 0%Z \/ pts = 3%Z)
             /\ (Play.play_type p = Some "punt"%string -> pts = 0%Z)
             /\ field_position t' = field_position t
             /\ downs_completed t' = (downs_completed t + 1)%Z)).
  { intros Hr.
    destruct (run_play_report _ _ _ _ _ Hr)
      as (pts & Hp & Hs & Hset & Htd & _ & _ & Hty & Hd & Hf).
    exists pts. split; [exact Hp|]. split; [exact Hs|].
    split; [unfold play_points; tauto|].
    split; [exact Hd|]. split; [exact Hf|].
    split.
    { intros Hpos. apply drive_continues_false. right. by apply Htd. }
    left. split; [exact Hty|]. split; [lia|exact Htd]. }
  unfold next_play in Hplay.
  destruct (downs_completed t <=? 2)%Z eqn:Hd; [by apply Hrun|].
  apply Z.leb_gt in Hd.
  destruct (fourth_down_decision_cases _ _ _ _ _ Hplay)
    as [Hr|[(Hk & _)|(Hp & _)]]; [by apply Hrun| |].
  - pose proof (kick_field_goal_report t g) as Hr. simpl in Hr.
    rewrite Hk in Hr. simpl in Hr.
    destruct Hr as (_ & _ & Hpts & Hs & Hf & Hdn & _ & _ & Hty & Hpd & Hpf).
    eexists. split; [exact Hpts|]. split; [exact Hs|].
    split.
    { unfold play_points.
      destruct (Qle_bool _ _); [right; by left|by left]. }
    split; [exact Hpd|]. split; [exact Hpf|].
    split.
    { intros _. apply drive_continues_false. left. lia. }
    right. split; [by left|]. split; [lia|].
    split; [destruct (Qle_bool _ _); auto|].
    split; [rewrite Hty; discriminate|by split].
  - pose proof (punt_report t g) as Hr. simpl in Hr.
    rewrite Hp in Hr. simpl in Hr.
    destruct Hr as (_ & _ & Hpts & _ & Hty & Hpd & Hpf & Hs & Hf & Hdn & _).
    exists 0%Z. split; [exact Hpts|]. split; [lia|].
    split; [by left|]. split; [exact Hpd|]. split; [exact Hpf|].
    split; [lia|].
    right. split; [by right|]. split; [lia|]. split; [by left|].
    by repeat split.
Qed.

(** X3.  Each play of a drive reports its points and adds exactly them to
    the score: 0, 6, 7 or 8 for a run play (positive exactly when the play
    reaches position 100), 0 or 3 for a field-goal attempt, 0 for a punt.
    A play that scores ends the drive, and so does every kick. *)
Theorem play_points_and_score (t : FootballTeam) (g : G) p t' g' :
  next_play t g = Ok (p, t', g') ->
  exists pts,
    Play.points_from_play p = Some pts
    /\ score t' = (score t + pts)%Z
    /\ play_points pts
    /\ ((0 < pts)%Z -> drive_continues t' = false)
    /\ (Play.play_type p = Some "run_play"%string ->
        pts <> 3%Z /\ ((0 < pts)%Z <-> 100 <= field_position t'))
    /\ (Play.play_type p = Some "field_goal"%string ->
        (pts = 0%Z \/ pts = 3%Z) /\ drive_continues t' = false)
    /\ (Play.play_type p = Some "punt"%string ->
        pts = 0%Z /\ drive_continues t' = false).
Proof.
  intros Hplay.
  destruct (next_play_report _ _ _ _ _ Hplay)
    as (pts & Hp & Hs & Hset & _ & _ & Hend & Hkind).
  exists pts. split; [exact Hp|]. split; [exact Hs|].
  split; [exact Hset|]. split; [exact Hend|].
  destruct Hkind as [(Hty & H3 & Htd)|(Hty & Hd & H03 & Hpunt & Hf & Hdn)].
  - rewrite Hty. repeat split; try discriminate; try tauto.
  - assert (Hstop : drive_continues t' = false).
    { apply drive_continues_false. left. lia. }
    destruct Hty as [Hty|Hty]; rewrite Hty;
      repeat split; try discriminate; auto.
Qed.
End FourthDownCalls.

(** ** What a drive reports *)

Section DriveReports.
Context {G : Type} `{RS : RandomSource G}.

(** The plays that the loop adds: all but the last are run plays without
    points, every one starts short of the goal line with at most three
    downs completed, and the score grows by the points of the last. *)
Lemma drive_loop_report fuel :
  forall (t : FootballTeam) (g : G) plays t' g' plays',
    drive_loop fuel t g plays = Done (t', g', plays') ->
    exists new,
      plays' = plays ++ new
      /\ drive_continues t' = false
      /\ Forall (fun p => Play.field_position p < 100
                          /\ (Play.down p <= 3)%Z) new
      /\ ((new = [] /\ t' = t /\ g' = g)
          \/ (drive_continues t = true
              /\ exists init lastp pts,
                  new = init ++ [lastp]
                  /\ Forall scoreless_run init
                  /\ Play.points_from_play lastp = Some pts
                  /\ play_points pts
                  /\ score t' = (score t + pts)%Z)).
Proof.
  induction fuel as [|fuel IH]; intros t g plays t' g' plays';
    rewrite drive_loop_unfold; destruct (drive_continues t) eqn:Hc;
    try discriminate.
  - intros [= <- <- <-]. exists []. rewrite app_nil_r.
    repeat split; auto.
  - destruct (next_play t g) as [[[p t1] g1]|e] eqn:Hplay; simpl;
      [|discriminate].
    intros Hrun.
    destruct (IH _ _ _ _ _ _ Hrun)
      as (new1 & -> & Hend & Hall & Hnew).
    destruct (next_play_report _ _ _ _ _ Hplay)
      as (pts & Hp & Hs & Hset & Hpd & Hpf & Hstop & Hkind).
    apply drive_continues_true in Hc as [Hd3 Hfp].
    exists (p :: new1). rewrite <- app_assoc. simpl.
    split; [reflexivity|]. split; [exact Hend|].
    split.
    { constructor; [|exact Hall]. rewrite Hpd, Hpf. by split. }
    right. split; [reflexivity|].
    destruct Hnew as [(-> & -> & ->)|(Hc1 & init & lastp & pts' & -> & Hi
                                      & Hl & Hset' & Hs')].
    + exists [], p, pts. repeat split; auto.
    + exists (p :: init), lastp, pts'.
      assert (Hzero : pts = 0%Z).
      { destruct (Z.lt_trichotomy 0 pts) as [H|[H|H]]; [|lia|].
        - specialize (Hstop H). congruence.
        - unfold play_points in Hset. lia. }
      subst pts. split; [reflexivity|].
      split.
      { constructor; [|exact Hi]. split; [|exact Hp].
        destruct Hkind as [(Hty & _)|(_ & Hd & _ & _ & _ & Hdn)];
          [exact Hty|].
        apply drive_continues_true in Hc1 as [Hc1 _]. lia. }
      repeat split; auto. lia.
  - intros [= <- <- <-]. exists []. rewrite app_nil_r.
    repeat split; auto.
Qed.

(** [simulate_drive] in terms of its loop. *)
Lemma simulate_drive_inv fuel start (t : FootballTeam) (g : G) t' g' :
  simulate_drive fuel start t g = Done (t', g') ->
  exists t1 plays,
    drive_loop fuel (reset_series (set_field_position start t)) g []
    = Done (t1, g', plays)
    /\ t' = update_drive_data plays (set_has_completed_possession true t1).
Proof.
  unfold simulate_drive.
  destruct (drive_loop _ _ _ _) as [[[t1 g1] plays]| |]; simpl;
    try discriminate.
  intros [= <- <-]. by exists t1, plays.
Qed.

(** X4.  Only the last play of a drive can score.  The drive appends one
    frame; every play of it but the last is a run play with 0 points, and
    the team's score grows by exactly the points of the last play, one of
    0, 3, 6, 7, 8 (by nothing when the drive has no play).  After a drive
    that raised the score the opponent starts at 25. *)
Theorem drive_scores_on_last_play fuel start (t : FootballTeam) (g : G)
    t' g' :
  simulate_drive fuel start t g = Done (t', g') ->
  exists plays,
    drive_data t' = drive_data t ++ [plays]
    /\ ((plays = [] /\ score t' = score t)
        \/ exists init lastp pts,
            plays = init ++ [lastp]
            /\ Forall scoreless_run init
            /\ Play.points_from_play lastp = Some pts
            /\ play_points pts
            /\ score t' = (score t + pts)%Z)
    /\ (score t <= score t')%Z
    /\ ((score t < score t')%Z -> determine_opponent_position t' = Ok 25).
Proof.
  intros Hrun.
  destruct (simulate_drive_inv _ _ _ _ _ _ Hrun) as (t1 & plays & Hloop & ->).
  pose proof (drive_loop_frame _ _ _ _ _ _ _ Hloop) as Hfr.
  destruct (drive_loop_report _ _ _ _ _ _ _ Hloop)
    as (new & Hnew & _ & _ & Hcases).
  simpl in Hnew. subst new. exists plays.
  assert (Hdata : drive_data t1 = drive_data t) by apply Hfr.
  split; [simpl; by rewrite Hdata|].
  destruct Hcases as [(-> & -> & _)|(_ & init & lastp & pts & -> & Hi & Hl
                                     & Hset & Hs)]; simpl in *.
  - split; [by left|]. split; [lia|]. intros H. lia.
  - split; [right; by exists init, lastp, pts|].
    split; [unfold play_points in Hset; lia|].
    intros Hlt. unfold determine_opponent_position, get_last_play. simpl.
    rewrite !last_snoc. simpl. rewrite Hl. simpl.
    assert (Hpos : (0 <? pts)%Z = true) by (apply Z.ltb_lt; lia).
    by rewrite Hpos.
Qed.

(** X5.  A drive never changes what the team is: name, yardage and punt
    parameters, thresholds, conversion settings, obligation flags and
    [had_ball_first] are the same after it.  It marks the possession as
    completed and adds exactly one frame to [drive_data], after the frames
    already there. *)
Theorem drive_keeps_the_team fuel start (t : FootballTeam) (g : G) t' g' :
  simulate_drive fuel start t g = Done (t', g') ->
  same_parameters t t'
  /\ need_touchdown t' = need_touchdown t
  /\ need_score t' = need_score t
  /\ had_ball_first t' = had_ball_first t
  /\ has_completed_a_possession t' = true
  /\ length (drive_data t') = S (length (drive_data t))
  /\ take (length (drive_data t)) (drive_data t') = drive_data t.
Proof.
  intros Hrun.
  destruct (simulate_drive_inv _ _ _ _ _ _ Hrun) as (t1 & plays & Hloop & ->).
  pose proof (drive_loop_frame _ _ _ _ _ _ _ Hloop) as Hfr.
  unfold same_team in Hfr. simpl in Hfr.
  destruct Hfr as (? & ? & ? & ? & ? & ? & ? & ? & ? & ? & ? & ? & ? & ?
                   & ? & Hdata).
  unfold same_parameters. simpl. rewrite Hdata.
  repeat split; auto.
  - rewrite length_app. simpl. lia.
  - by rewrite take_app_length.
Qed.

(** X6.  A drive that starts at position 100 or beyond has no play: for
    every fuel it returns at once with an empty frame, the same score and
    the generator untouched, and asking for the opponent's position after
    it raises [IndexError].  In the sudden-death loop with the scores
    level this ends the game with that error. *)
Theorem drive_from_the_goal_line_is_empty fuel start (t : FootballTeam)
    (g : G) :
  100 <= start ->
  exists t',
    simulate_drive fuel start t g = Done (t', g)
    /\ drive_data t' = drive_data t ++ [[]]
    /\ score t' = score t
    /\ get_last_play t' = Raise IndexError
    /\ determine_opponent_position t' = Raise IndexError
    /\ (forall gm : FootballGame,
           ball_first_team gm = t ->
           score t = score (ball_second_team gm) ->
           sudden_death (S fuel) start gm g = Raised IndexError).
Proof.
  intros Hstart.
  assert (Hstop :
            drive_continues (reset_series (set_field_position start t))
            = false).
  { apply drive_continues_false. right. exact Hstart. }
  assert (Hdrive : forall n,
             simulate_drive n start t g
             = Done (update_drive_data []
                       (set_has_completed_possession true
                          (reset_series (set_field_position start t))), g)).
  { intros n. unfold simulate_drive. by rewrite drive_loop_stops. }
  eexists. split; [apply Hdrive|].
  assert (Hlast : get_last_play
                    (update_drive_data []
                       (set_has_completed_possession true
                          (reset_series (set_field_position start t))))
                  = Raise IndexError).
  { unfold get_last_play. simpl. by rewrite last_snoc. }
  split; [reflexivity|]. split; [reflexivity|]. split; [exact Hlast|].
  split; [unfold determine_opponent_position; by rewrite Hlast|].
  intros gm <- Hscore.
  rewrite sudden_death_unfold.
  assert (Hno : forall gm' : FootballGame,
             score (ball_first_team gm') = score (ball_second_team gm') ->
             check_for_winner gm' = false).
  { intros gm' H. unfold check_for_winner. rewrite H, Z.eqb_refl. simpl.
    apply andb_false_r. }
  rewrite (Hno gm Hscore). simpl.
  unfold first_team_drive. rewrite Hdrive. simpl.
  rewrite Hno by exact Hscore.
  unfold determine_opponent_position. rewrite Hlast. reflexivity.
Qed.
End DriveReports.

(** ** The snap of every play *)

Section Snaps.
Context {G : Type} `{RS : RandomSource G}.


End Snaps.

(** ** Kicks *)

Section Kicks.
Context {G : Type} `{RS : RandomSource G}.


(** X9.  A field-goal attempt is made exactly when its one uniform draw is
    at most the probability at the position.  The [made_kick] flag, the
    points (3 or 0) and the change of the score always agree, the record
    holds -5 yards gained whether the kick is made or not, and from a
    position short of 57 only a draw of 0 or less is made. *)
Theorem field_goal_flag_points_and_score_agree (t : FootballTeam) (g : G) :
  exists made : bool,
    Play.made_kick (kick_field_goal t g).1.1 = Some made
    /\ (made = true <-> (uniform g).1 <= get_field_goal_probability t)
    /\ Play.points_from_play (kick_field_goal t g).1.1
       = Some (if made then 3 else 0)%Z
    /\ score (kick_field_goal t g).1.2
       = (score t + if made then 3 else 0)%Z
    /\ Play.yards_gained (kick_field_goal t g).1.1 = Some (-5)
    /\ field_position (kick_field_goal t g).1.2 = field_position t
    /\ (field_position t < 57 -> 0 < (uniform g).1 -> made = false).
Proof.
  pose proof (kick_field_goal_report t g) as Hr. simpl in Hr.
  destruct Hr as (_ & Hm & Hp & Hs & Hf & _ & _ & Hy & _).
  exists (Qle_bool (uniform g).1 (get_field_goal_probability t)).
  split; [exact Hm|]. split; [apply Qle_bool_iff|].
  split; [exact Hp|]. split; [exact Hs|]. split; [exact Hy|].
  split; [exact Hf|].
  intros Hfp Hu. apply Qle_bool_false.
  assert (Hz : get_field_goal_probability t = 0).
  { unfold get_field_goal_probability.
    assert (H40 : Qle_bool (100 - field_position t + 17) 40 = false)
      by (apply Qle_bool_false; lra).
    assert (H50 : Qle_bool (100 - field_position t + 17) 50 = false)
      by (apply Qle_bool_false; lra).
    assert (H60 : Qle_bool (100 - field_position t + 17) 60 = false)
      by (apply Qle_bool_false; lra).
    by rewrite H40, H50, H60. }
  by rewrite Hz.
Qed.
End Kicks.

(** ** The two ways to ask where the next drive starts *)

(** X10.  [FootballGame.determine_drive_start] and
    [FootballTeam.determine_opponent_position] are the same computation on
    the team that the flag selects: they return the same position and
    raise the same error, for every game. *)
Theorem determine_drive_start_agrees (gm : FootballGame) :
  determine_drive_start gm true
  = determine_opponent_position (ball_first_team gm)
  /\ determine_drive_start gm false
     = determine_opponent_position (ball_second_team gm)
  /\ FootballGame_get_last_play gm true = get_last_play (ball_first_team gm)
  /\ FootballGame_get_last_play gm false
     = get_last_play (ball_second_team gm).
Proof. repeat split. Qed.

(** ** The course of a game *)

Section GameCourse.
Context {G : Type} `{RS : RandomSource G}.

Lemma same_parameters_refl (t : FootballTeam) : same_parameters t t.
Proof. repeat split. Qed.

Lemma same_parameters_trans (t1 t2 t3 : FootballTeam) :
  same_parameters t1 t2 -> same_parameters t2 t3 -> same_parameters t1 t3.
Proof.
  unfold same_parameters. intros H1 H2.
  repeat match goal with H : _ /\ _ |- _ => destruct H end.
  repeat split; congruence.
Qed.

Lemma progressed_refl (t : FootballTeam) : progressed 0 t t.
Proof.
  split; [apply same_parameters_refl|].
  repeat split; try lia. intros [H|H]; [exact H|lia].
Qed.

Lemma progressed_trans n m (t1 t2 t3 : FootballTeam) :
  progressed n t1 t2 -> progressed m t2 t3 -> progressed (n + m) t1 t3.
Proof.
  intros (Hp1 & Ht1 & Hs1 & Hb1 & Hl1 & Hsc1 & Hc1)
         (Hp2 & Ht2 & Hs2 & Hb2 & Hl2 & Hsc2 & Hc2).
  split; [eapply same_parameters_trans; eauto|].
  repeat split; try congruence; try lia.
  intros [H|H].
  - apply Hc2. left. apply Hc1. by left.
  - destruct n as [|n].
    + apply Hc2. right. lia.
    + apply Hc2. left. apply Hc1. right. lia.
Qed.

(** One drive is one step of progress. *)
Lemma simulate_drive_progressed fuel start (t : FootballTeam) (g : G)
    t' g' :
  simulate_drive fuel start t g = Done (t', g') -> progressed 1 t t'.
Proof.
  intros Hrun.
  destruct (simulate_drive_inv _ _ _ _ _ _ Hrun) as (t1 & plays & Hloop & ->).
  pose proof (drive_loop_frame _ _ _ _ _ _ _ Hloop) as Hfr.
  destruct (drive_loop_report _ _ _ _ _ _ _ Hloop)
    as (new & _ & _ & _ & Hcases).
  assert (Hscore : (score t <= score t1)%Z).
  { destruct Hcases as [(_ & -> & _)|(_ & init & lastp & pts & _ & _ & _
                                     & Hset & Hs)].
    - simpl. lia.
    - simpl in Hs. unfold play_points in Hset. lia. }
  unfold same_team in Hfr. simpl in Hfr.
  destruct Hfr as (? & ? & ? & ? & ? & ? & ? & ? & ? & ? & ? & ? & ? & ?
                   & ? & Hdata).
  unfold progressed, same_parameters. simpl. rewrite Hdata, length_app.
  repeat split; auto.
Qed.

Lemma not_winner_level (gm : FootballGame) :
  check_for_winner gm = false ->
  has_completed_a_possession (ball_first_team gm) = true ->
  has_completed_a_possession (ball_second_team gm) = true ->
  score (ball_first_team gm) = score (ball_second_team gm).
Proof.
  unfold check_for_winner. intros H H1 H2. rewrite H1, H2 in H.
  simpl in H.
  apply negb_false_iff, Z.eqb_eq in H. exact H.
Qed.

(** The sudden-death loop gives the first team as many drives as the
    second, or one more; in the latter case the first team leads. *)
Lemma sudden_death_course fuel :
  forall start (gm : FootballGame) (g : G) gm' g',
    sudden_death fuel start gm g = Done (gm', g') ->
    has_completed_a_possession (ball_first_team gm) = true ->
    has_completed_a_possession (ball_second_team gm) = true ->
    exists n b,
      progressed (n + b) (ball_first_team gm) (ball_first_team gm')
      /\ progressed n (ball_second_team gm) (ball_second_team gm')
      /\ (b = 0 \/ b = 1)%nat
      /\ (b = 1%nat ->
          (score (ball_second_team gm') < score (ball_first_team gm'))%Z)
      /\ game_data gm' = game_data gm
      /\ winner gm' = winner gm
      /\ loser gm' = loser gm.
Proof.
  induction fuel as [|fuel IH]; intros start gm g gm' g';
    rewrite sudden_death_unfold;
    destruct (check_for_winner gm) eqn:Hc; simpl; try discriminate;
    try (intros [= <- <-] _ _; exists 0%nat, 0%nat;
         split; [apply progressed_refl|];
         split; [apply progressed_refl|];
         split; [by left|]; split; [discriminate|by repeat split]).
  unfold first_team_drive.
  destruct (simulate_drive _ start (ball_first_team gm) g)
    as [[t1 g1]| |] eqn:Hd1; simpl; try discriminate.
  apply simulate_drive_progressed in Hd1.
  intros Hrun Hc1 Hc2.
  pose proof (not_winner_level gm Hc Hc1 Hc2) as Hlevel.
  destruct (check_for_winner (with_ball_first_team t1 gm)) eqn:Hw.
  - injection Hrun as <- <-. exists 0%nat, 1%nat. simpl.
    split; [exact Hd1|]. split; [apply progressed_refl|].
    split; [by right|]. split; [|by repeat split].
    intros _. apply check_for_winner_scores in Hw. simpl in Hw.
    destruct Hd1 as (_ & _ & _ & _ & _ & Hsc & _). lia.
  - destruct (determine_opponent_position t1) as [s1|]; simpl in Hrun;
      try discriminate.
    unfold second_team_drive in Hrun. simpl in Hrun.
    destruct (simulate_drive _ s1 (ball_second_team gm) g1)
      as [[t2 g2]| |] eqn:Hd2; simpl in Hrun; try discriminate.
    apply simulate_drive_progressed in Hd2.
    destruct (determine_opponent_position t2) as [s2|]; simpl in Hrun;
      try discriminate.
    destruct (IH _ _ _ _ _ Hrun) as (n & b & Hp1 & Hp2 & Hb & Hlead & Hg
                                     & Hwin & Hlos); simpl in *.
    { apply Hd1. right. lia. }
    { apply Hd2. right. lia. }
    exists (S n), b.
    split; [exact (progressed_trans 1 (n + b) _ _ _ Hd1 Hp1)|].
    split; [exact (progressed_trans 1 n _ _ _ Hd2 Hp2)|].
    by repeat split.
Qed.
End GameCourse.

Section GameEnd.
Context {G : Type} `{RS : RandomSource G}.

(** The two regulation possessions: one drive each, the ball-first marks
    set, the obligation flags cleared at the end. *)
Lemma regulation_course fuel (gm : FootballGame) (g : G) start gm' g' :
  regulation fuel gm g = Done (start, gm', g') ->
  same_parameters (ball_first_team gm) (ball_first_team gm')
  /\ same_parameters (ball_second_team gm) (ball_second_team gm')
  /\ had_ball_first (ball_first_team gm') = Some true
  /\ had_ball_first (ball_second_team gm') = Some false
  /\ need_touchdown (ball_first_team gm') = false
  /\ need_score (ball_first_team gm') = false
  /\ need_touchdown (ball_second_team gm') = false
  /\ need_score (ball_second_team gm') = false
  /\ has_completed_a_possession (ball_first_team gm') = true
  /\ has_completed_a_possession (ball_second_team gm') = true
  /\ length (drive_data (ball_first_team gm'))
     = S (length (drive_data (ball_first_team gm)))
  /\ length (drive_data (ball_second_team gm'))
     = S (length (drive_data (ball_second_team gm)))
  /\ game_data gm' = game_data gm
  /\ winner gm' = winner gm
  /\ loser gm' = loser gm.
Proof.
  unfold regulation, first_team_drive. simpl.
  destruct (simulate_drive fuel 25 _ g) as [[t1 g1]| |] eqn:Hd1; simpl;
    try discriminate.
  apply simulate_drive_progressed in Hd1.
  destruct (determine_opponent_position t1) as [s1|]; simpl;
    try discriminate.
  destruct Hd1 as (Hp1 & _ & _ & Hb1 & Hl1 & _ & Hc1).
  assert (Hsecond :
            forall t0 : FootballTeam,
              same_parameters (ball_second_team gm) t0 ->
              had_ball_first t0 = Some false ->
              drive_data t0 = drive_data (ball_second_team gm) ->
              forall gm0 : FootballGame,
                ball_first_team gm0 = t1 ->
                ball_second_team gm0 = t0 ->
                game_data gm0 = game_data gm ->
                winner gm0 = winner gm ->
                loser gm0 = loser gm ->
                (second_team_drive fuel s1 gm0 g1
                 ≫= (fun '(gm2, g2) =>
                       lift (determine_opponent_position
                               (ball_second_team gm2))
                       ≫= (fun s2 => Done (s2, enable_sudden_death gm2, g2))))
                = Done (start, gm', g') ->
                same_parameters (ball_first_team gm) (ball_first_team gm')
                /\ same_parameters (ball_second_team gm)
                     (ball_second_team gm')
                /\ had_ball_first (ball_first_team gm') = Some true
                /\ had_ball_first (ball_second_team gm') = Some false
                /\ need_touchdown (ball_first_team gm') = false
                /\ need_score (ball_first_team gm') = false
                /\ need_touchdown (ball_second_team gm') = false
                /\ need_score (ball_second_team gm') = false
                /\ has_completed_a_possession (ball_first_team gm') = true
                /\ has_completed_a_possession (ball_second_team gm') = true
                /\ length (drive_data (ball_first_team gm'))
                   = S (length (drive_data (ball_first_team gm)))
                /\ length (drive_data (ball_second_team gm'))
                   = S (length (drive_data (ball_second_team gm)))
                /\ game_data gm' = game_data gm
                /\ winner gm' = winner gm
                /\ loser gm' = loser gm).
  { intros t0 Hp0 Hb0 Hdd0 gm0 Hf0 Hs0 Hg0 Hw0 Hl0.
    unfold second_team_drive. rewrite Hs0.
    destruct (simulate_drive fuel s1 t0 g1) as [[t2 g2]| |] eqn:Hd2; simpl;
      try discriminate.
    apply simulate_drive_progressed in Hd2.
    destruct (determine_opponent_position t2) as [s2|]; simpl;
      try discriminate.
    intros [= <- <- <-]. simpl. rewrite Hf0.
    destruct Hd2 as (Hp2 & _ & _ & Hb2 & Hl2 & _ & Hc2).
    split.
    { unfold same_parameters in *. simpl in *.
      repeat match goal with H : _ /\ _ |- _ => destruct H end.
      repeat split; congruence. }
    split.
    { unfold same_parameters in *. simpl in *.
      repeat match goal with H : _ /\ _ |- _ => destruct H end.
      repeat split; congruence. }
    split; [by rewrite Hb1|]. split; [by rewrite Hb2|].
    repeat split; auto;
      try (apply Hc1; right; lia); try (apply Hc2; right; lia);
      try (rewrite Hl1; simpl; lia); try (rewrite Hl2, Hdd0; lia). }
  destruct (score t1 =? 7)%Z; simpl; destruct (score t1 =? 3)%Z; simpl;
    (eapply Hsecond; [ | | | | reflexivity | | | ];
     try reflexivity; repeat split).
Qed.

(** The winner set by [set_winning_team] when the first team leads. *)
Lemma set_winning_team_leader (gm : FootballGame) :
  (score (ball_second_team gm) < score (ball_first_team gm))%Z ->
  winner (set_winning_team gm).1 = Some ball_first.
Proof.
  intros H. unfold set_winning_team. simpl.
  apply Z.ltb_lt in H. by rewrite H.
Qed.

(** What the summary holds after [update_game_data] on a game with a
    winner and a loser. *)
Lemma update_game_data_entries (gm gm' : FootballGame) (w l : side) :
  winner gm = Some w ->
  loser gm = Some l ->
  update_game_data gm = Ok gm' ->
  game_data gm' !! "winner"%string = Some (VStr (name (deref gm w)))
  /\ game_data gm' !! "loser"%string = Some (VStr (name (deref gm l)))
  /\ game_data gm' !! "winner_had_ball_first"%string
     = Some (pybool (had_ball_first (deref gm w)))
  /\ game_data gm' !! "winning_team_number_of_drives"%string
     = Some (pylen (drive_data (deref gm w)))
  /\ game_data gm' !! "losing_team_number_of_drives"%string
     = Some (pylen (drive_data (deref gm l)))
  /\ (exists yw,
         sum_yards_gained (concat (drive_data (deref gm w))) = Ok yw
         /\ game_data gm' !! "total_yards_winning_team"%string
            = Some (VFloat yw))
  /\ (exists yl,
         sum_yards_gained (concat (drive_data (deref gm l))) = Ok yl
         /\ game_data gm' !! "total_yards_losing_team"%string
            = Some (VFloat yl))
  /\ dom (game_data gm') = summary_keys ∪ dom (game_data gm)
  /\ (forall k, k ∉ summary_keys ->
                game_data gm' !! k = game_data gm !! k).
Proof.
  intros Hw Hl. unfold update_game_data. rewrite Hw, Hl. simpl.
  unfold get_drive_data, pd_concat.
  destruct (drive_data (deref gm w)) as [|wd wds] eqn:Hwd; simpl;
    [discriminate|].
  destruct (drive_data (deref gm l)) as [|ld lds] eqn:Hld; simpl;
    [discriminate|].
  destruct (sum_yards_gained (wd ++ concat wds)) as [yw|] eqn:Hyw; simpl;
    [|discriminate].
  destruct (sum_yards_gained (ld ++ concat lds)) as [yl|] eqn:Hyl; simpl;
    [|discriminate].
  intros [= <-]. simpl.
  split; [by simplify_map_eq|]. split; [by simplify_map_eq|].
  split; [by simplify_map_eq|]. split; [by simplify_map_eq|].
  split; [by simplify_map_eq|].
  split; [exists yw; split; [reflexivity|by simplify_map_eq]|].
  split; [exists yl; split; [reflexivity|by simplify_map_eq]|].
  split.
  - rewrite !dom_insert_L. unfold summary_keys. apply set_eq. intros x.
    rewrite !elem_of_union, !elem_of_singleton. tauto.
  - intros k Hk. unfold summary_keys in Hk.
    rewrite !not_elem_of_union, !not_elem_of_singleton in Hk.
    destruct Hk as (((((((? & ?) & ?) & ?) & ?) & ?) & ?) & ?).
    rewrite !lookup_insert_ne by congruence. reflexivity.
Qed.
End GameEnd.

Section GameTheorems.
Context {G : Type} `{RS : RandomSource G}.

(** The stages of a game that returned. *)
Lemma simulate_game_stages fuel (gm : FootballGame) (g : G) gm' g' printed :
  simulate_game fuel gm g = Done (gm', g', printed) ->
  exists start gm0 g0 gm1 w l,
    regulation fuel gm g = Done (start, gm0, g0)
    /\ sudden_death fuel start gm0 g0 = Done (gm1, g')
    /\ ball_first_team gm' = ball_first_team gm1
    /\ ball_second_team gm' = ball_second_team gm1
    /\ winner gm' = Some w /\ loser gm' = Some l
    /\ winner (set_winning_team gm1).1 = Some w
    /\ update_game_data (set_winning_team gm1).1 = Ok gm'
    /\ game_data (set_winning_team gm1).1 = game_data gm1.
Proof.
  unfold simulate_game.
  destruct (regulation fuel gm g) as [[[s0 gm0] g0]| |] eqn:Hreg; simpl;
    try discriminate.
  destruct (sudden_death fuel s0 gm0 g0) as [[gm1 g1]| |] eqn:Hsd; simpl;
    try discriminate.
  pose proof (sudden_death_exit _ _ _ _ _ _ Hsd) as Hwin.
  pose proof (check_for_winner_scores gm1 Hwin) as Hne.
  destruct (set_winning_team_guard_free gm1 Hne)
    as (_ & (w & l & Hw & Hl & _) & Hf & Hs & Hd).
  destruct (set_winning_team gm1) as [gm2 pr] eqn:Hset. simpl in *.
  destruct (update_game_data gm2) as [gm3|] eqn:Hup; simpl; [|discriminate].
  intros [= <- <- <-].
  destruct (update_game_data_scores gm2 gm3 w Hw Hup)
    as (l' & _ & _ & _ & Hf3 & Hs3 & Hw3 & Hl3).
  exists s0, gm0, g0, gm1, w, l. rewrite Hset. simpl.
  repeat split; auto; congruence.
Qed.

(** X11.  In a game that returned, each team made at least one drive, and
    the team that had the ball first made as many drives as the other
    team or exactly one more.  When it made one more it is the winner, so
    a win of the second team comes with equal numbers of drives.  The
    summary holds the two numbers. *)
Theorem drive_counts_differ_by_at_most_one fuel (gm : FootballGame)
    (g : G) gm' g' printed :
  simulate_game fuel gm g = Done (gm', g', printed) ->
  exists (n b : nat) (w l : side),
    length (drive_data (ball_first_team gm'))
    = (length (drive_data (ball_first_team gm)) + 1 + n + b)%nat
    /\ length (drive_data (ball_second_team gm'))
       = (length (drive_data (ball_second_team gm)) + 1 + n)%nat
    /\ (b = 0 \/ b = 1)%nat
    /\ winner gm' = Some w /\ loser gm' = Some l
    /\ (b = 1%nat -> w = ball_first)
    /\ game_data gm' !! "winning_team_number_of_drives"%string
       = Some (VInt (Z.of_nat (length (drive_data (deref gm' w)))))
    /\ game_data gm' !! "losing_team_number_of_drives"%string
       = Some (VInt (Z.of_nat (length (drive_data (deref gm' l))))).
Proof.
  intros Hrun.
  destruct (simulate_game_stages _ _ _ _ _ _ Hrun)
    as (s0 & gm0 & g0 & gm1 & w & l & Hreg & Hsd & Hf & Hs & Hw & Hl
        & Hw2 & Hup & _).
  destruct (regulation_course _ _ _ _ _ _ Hreg)
    as (_ & _ & _ & _ & _ & _ & _ & _ & Hc1 & Hc2 & Hl1 & Hl2 & _).
  destruct (sudden_death_course _ _ _ _ _ _ Hsd Hc1 Hc2)
    as (n & b & Hp1 & Hp2 & Hb & Hlead & _).
  destruct Hp1 as (_ & _ & _ & _ & Hlen1 & _).
  destruct Hp2 as (_ & _ & _ & _ & Hlen2 & _).
  exists n, b, w, l. rewrite Hf, Hs.
  split; [lia|]. split; [lia|]. split; [exact Hb|].
  split; [exact Hw|]. split; [exact Hl|].
  split.
  { intros Hb1. specialize (Hlead Hb1).
    rewrite (set_winning_team_leader gm1 Hlead) in Hw2. congruence. }
  destruct (update_game_data_scores _ _ w Hw2 Hup)
    as (l' & Hl2' & _ & _ & Hf3 & Hs3 & _ & Hl3).
  assert (l' = l) by congruence. subst l'.
  destruct (update_game_data_entries _ _ w l Hw2 Hl2' Hup)
    as (_ & _ & _ & Hnw & Hnl & _).
  assert (Hderef : forall s, deref gm' s = deref (set_winning_team gm1).1 s).
  { intros [|]; simpl; congruence. }
  rewrite !Hderef. by split.
Qed.

(** The teams and the summary keys of a game that returned. *)
Lemma simulate_game_teams_and_keys fuel (gm : FootballGame) (g : G)
    gm' g' printed :
  simulate_game fuel gm g = Done (gm', g', printed) ->
  same_parameters (ball_first_team gm) (ball_first_team gm')
  /\ same_parameters (ball_second_team gm) (ball_second_team gm')
  /\ dom (game_data gm') = summary_keys ∪ dom (game_data gm).
Proof.
  intros Hrun.
  destruct (simulate_game_stages _ _ _ _ _ _ Hrun)
    as (s0 & gm0 & g0 & gm1 & w & l & Hreg & Hsd & Hf & Hs & Hw & Hl
        & Hw2 & Hup & Hgd).
  destruct (regulation_course _ _ _ _ _ _ Hreg)
    as (Hq1 & Hq2 & _ & _ & _ & _ & _ & _ & Hc1 & Hc2 & _ & _ & Hg0 & _).
  destruct (sudden_death_course _ _ _ _ _ _ Hsd Hc1 Hc2)
    as (n & b & (Hpp1 & _) & (Hpp2 & _) & _ & _ & Hg1 & _).
  rewrite Hf, Hs.
  split; [eapply same_parameters_trans; eauto|].
  split; [eapply same_parameters_trans; eauto|].
  destruct (update_game_data_scores _ _ w Hw2 Hup) as (l' & Hl2' & _).
  destruct (update_game_data_entries _ _ w l' Hw2 Hl2' Hup)
    as (_ & _ & _ & _ & _ & _ & _ & Hdom & _).
  by rewrite Hdom, Hgd, Hg1, Hg0.
Qed.

(** X12.  In a game that returned, both teams still have the parameters
    they were built with, the first team is marked as having had the ball
    first and the second as not, every obligation flag is cleared and both
    teams have completed a possession.  The summary names the winner and
    the loser by the names of the two teams, and its entry
    "winner_had_ball_first" is true exactly when the winner is the first
    team. *)
Theorem game_end_state fuel (gm : FootballGame) (g : G) gm' g' printed :
  simulate_game fuel gm g = Done (gm', g', printed) ->
  same_parameters (ball_first_team gm) (ball_first_team gm')
  /\ same_parameters (ball_second_team gm) (ball_second_team gm')
  /\ had_ball_first (ball_first_team gm') = Some true
  /\ had_ball_first (ball_second_team gm') = Some false
  /\ need_touchdown (ball_first_team gm') = false
  /\ need_score (ball_first_team gm') = false
  /\ need_touchdown (ball_second_team gm') = false
  /\ need_score (ball_second_team gm') = false
  /\ has_completed_a_possession (ball_first_team gm') = true
  /\ has_completed_a_possession (ball_second_team gm') = true
  /\ exists w l,
      winner gm' = Some w /\ loser gm' = Some l
      /\ game_data gm' !! "winner"%string = Some (VStr (name (deref gm w)))
      /\ game_data gm' !! "loser"%string = Some (VStr (name (deref gm l)))
      /\ game_data gm' !! "winner_had_ball_first"%string
         = Some (VBool match w with
                       | ball_first => true
                       | ball_second => false
                       end)
      /\ dom (game_data gm') = summary_keys ∪ dom (game_data gm).
Proof.
  intros Hrun.
  destruct (simulate_game_stages _ _ _ _ _ _ Hrun)
    as (s0 & gm0 & g0 & gm1 & w & l & Hreg & Hsd & Hf & Hs & Hw & Hl
        & Hw2 & Hup & Hgd).
  destruct (regulation_course _ _ _ _ _ _ Hreg)
    as (Hq1 & Hq2 & Hb1 & Hb2 & Ht1 & Hs1 & Ht2 & Hs2 & Hc1 & Hc2 & _ & _
        & Hg0 & _).
  destruct (sudden_death_course _ _ _ _ _ _ Hsd Hc1 Hc2)
    as (n & b & Hp1 & Hp2 & _ & _ & Hg1 & _).
  destruct Hp1 as (Hpp1 & Hnt1 & Hns1 & Hhb1 & _ & _ & Hcc1).
  destruct Hp2 as (Hpp2 & Hnt2 & Hns2 & Hhb2 & _ & _ & Hcc2).
  rewrite Hf, Hs.
  split; [eapply same_parameters_trans; eauto|].
  split; [eapply same_parameters_trans; eauto|].
  split; [congruence|]. split; [congruence|].
  split; [congruence|]. split; [congruence|].
  split; [congruence|]. split; [congruence|].
  split; [apply Hcc1; by left|]. split; [apply Hcc2; by left|].
  exists w, l. split; [exact Hw|]. split; [exact Hl|].
  destruct (update_game_data_scores _ _ w Hw2 Hup)
    as (l' & Hl2' & _ & _ & Hf3 & Hs3 & _ & Hl3).
  assert (l' = l) by congruence. subst l'.
  destruct (update_game_data_entries _ _ w l Hw2 Hl2' Hup)
    as (Hnw & Hnl & Hhb & _ & _ & _ & _ & Hdom & _).
  assert (Hname : forall s, name (deref (set_winning_team gm1).1 s)
                            = name (deref gm s)).
  { assert (Hn1 : name (ball_first_team gm1) = name (ball_first_team gm)).
    { destruct Hpp1 as (-> & _). apply Hq1. }
    assert (Hn2 : name (ball_second_team gm1) = name (ball_second_team gm)).
    { destruct Hpp2 as (-> & _). apply Hq2. }
    intros [|]; simpl; congruence. }
  rewrite Hnw, Hnl, Hhb, !Hname, Hdom, Hgd, Hg1, Hg0.
  repeat split.
  destruct w; simpl.
  - replace (ball_first_team (set_winning_team gm1).1)
      with (ball_first_team gm') by congruence.
    rewrite Hf. replace (had_ball_first (ball_first_team gm1))
      with (Some true) by congruence. reflexivity.
  - replace (ball_second_team (set_winning_team gm1).1)
      with (ball_second_team gm') by congruence.
    rewrite Hs. replace (had_ball_first (ball_second_team gm1))
      with (Some false) by congruence. reflexivity.
Qed.

End GameTheorems.

(** ** The summary and the batch of games *)

(** X13.  When [update_game_data] succeeds and when it raises.  Without a
    winner it leaves the game as it is.  With a winner it raises
    [ValueError] when the winner or the loser has no drive,
    [AttributeError] when there is no loser or when a team has no play
    that records yards gained; otherwise it succeeds, the two total-yards
    entries are the sums of the recorded yards gained over all drives of
    the team (run plays and the -5 of every field-goal attempt; punts
    record none), the teams, winner and loser are untouched, and only the
    eight summary keys are written. *)
Theorem update_game_data_outcome (gm : FootballGame) :
  (winner gm = None -> update_game_data gm = Ok gm)
  /\ (forall w, winner gm = Some w ->
                drive_data (deref gm w) = [] ->
                update_game_data gm = Raise ValueError)
  /\ (forall w, winner gm = Some w ->
                drive_data (deref gm w) <> [] ->
                loser gm = None ->
                update_game_data gm = Raise AttributeError)
  /\ (forall w l, winner gm = Some w -> loser gm = Some l ->
                  drive_data (deref gm w) <> [] ->
                  drive_data (deref gm l) = [] ->
                  update_game_data gm = Raise ValueError)
  /\ (forall w l, winner gm = Some w -> loser gm = Some l ->
                  drive_data (deref gm w) <> [] ->
                  drive_data (deref gm l) <> [] ->
                  omap Play.yards_gained (concat (drive_data (deref gm w)))
                  = []
                  \/ omap Play.yards_gained
                       (concat (drive_data (deref gm l))) = [] ->
                  update_game_data gm = Raise AttributeError)
  /\ (forall w l gm',
         winner gm = Some w -> loser gm = Some l ->
         update_game_data gm = Ok gm' ->
         game_data gm' !! "total_yards_winning_team"%string
         = Some (VFloat (foldr Qplus 0
                           (omap Play.yards_gained
                              (concat (drive_data (deref gm w))))))
         /\ game_data gm' !! "total_yards_losing_team"%string
            = Some (VFloat (foldr Qplus 0
                              (omap Play.yards_gained
                                 (concat (drive_data (deref gm l))))))
         /\ dom (game_data gm') = summary_keys ∪ dom (game_data gm)
         /\ (forall k, k ∉ summary_keys ->
                       game_data gm' !! k = game_data gm !! k)
         /\ ball_first_team gm' = ball_first_team gm
         /\ ball_second_team gm' = ball_second_team gm
         /\ winner gm' = winner gm
         /\ loser gm' = loser gm).
Proof.
  split.
  { intros Hw. unfold update_game_data. by rewrite Hw. }
  split.
  { intros w Hw Hd. unfold update_game_data, get_drive_data.
    by rewrite Hw, Hd. }
  split.
  { intros w Hw Hd Hl. unfold update_game_data, get_drive_data.
    rewrite Hw. destruct (drive_data (deref gm w)); [done|]. simpl.
    by rewrite Hl. }
  split.
  { intros w l Hw Hl Hdw Hdl. unfold update_game_data, get_drive_data.
    rewrite Hw. destruct (drive_data (deref gm w)); [done|]. simpl.
    rewrite Hl. simpl. unfold get_drive_data. by rewrite Hdl. }
  split.
  { intros w l Hw Hl Hdw Hdl Hno.
    unfold update_game_data, get_drive_data, pd_concat.
    rewrite Hw.
    destruct (drive_data (deref gm w)) as [|wd wds] eqn:Ew; [done|].
    simpl. rewrite Hl. simpl.
    destruct (drive_data (deref gm l)) as [|ld lds] eqn:El; [done|].
    simpl. unfold sum_yards_gained. simpl in Hno.
    destruct Hno as [Hno|Hno]; rewrite Hno; simpl; [reflexivity|].
    by destruct (omap Play.yards_gained (wd ++ concat wds)). }
  intros w l gm' Hw Hl Hup.
  destruct (update_game_data_entries gm gm' w l Hw Hl Hup)
    as (_ & _ & _ & _ & _ & (yw & Hyw & Hew) & (yl & Hyl & Hel) & Hdom
        & Hout).
  destruct (update_game_data_scores gm gm' w Hw Hup)
    as (_ & _ & _ & _ & Hf & Hs & Hw' & Hl').
  assert (Hsum : forall df y,
             sum_yards_gained df = Ok y ->
             y = foldr Qplus 0 (omap Play.yards_gained df)).
  { intros df y. unfold sum_yards_gained.
    destruct (omap Play.yards_gained df); [discriminate|].
    by intros [= <-]. }
  apply Hsum in Hyw, Hyl. subst yw yl.
  by repeat split.
Qed.

(** X14.  With the scores level [set_winning_team] sets no winner: it
    prints "Something wierd happened!", stores [None] as the winner and
    leaves the loser as it was; [update_game_data] then writes no
    summary. *)
Theorem level_scores_give_no_winner (gm : FootballGame) :
  score (ball_first_team gm) = score (ball_second_team gm) ->
  (set_winning_team gm).2 = ["Something wierd happened!"%string]
  /\ winner (set_winning_team gm).1 = None
  /\ loser (set_winning_team gm).1 = loser gm
  /\ update_game_data (set_winning_team gm).1 = Ok (set_winning_team gm).1
  /\ game_data (set_winning_team gm).1 = game_data gm.
Proof.
  intros Heq. unfold set_winning_team. simpl. rewrite Heq.
  rewrite Z.ltb_irrefl. simpl. repeat split.
Qed.

Section Batch.
Context {G : Type} `{RS : RandomSource G}.

(** X15.  [simulate_games], when it returns, holds exactly as many games
    as asked for and nothing was printed.  Every game was played by two
    fresh teams with the given names and conversion settings and is
    resolved: a winner and a loser with different scores are set, and its
    row of the summary table has exactly the eight summary keys. *)
Theorem simulate_games_batch fuel n name1 two1 name2 two2 (g : G)
    games g' printed :
  simulate_games fuel n name1 two1 name2 two2 g
  = Done (games, g', printed) ->
  length games = n
  /\ printed = []
  /\ length (summarize_df games) = n
  /\ Forall (fun gm =>
               name (ball_first_team gm) = name1
               /\ name (ball_second_team gm) = name2
               /\ go_for_two (ball_first_team gm) = two1
               /\ go_for_two (ball_second_team gm) = two2
               /\ check_for_winner gm = true
               /\ (exists w l,
                      winner gm = Some w /\ loser gm = Some l /\ w <> l
                      /\ (score (deref gm l) < score (deref gm w))%Z)
               /\ dom (game_data gm) = summary_keys) games.
Proof.
  revert g games g' printed.
  induction n as [|n IH]; intros g games g' printed; simpl.
  { intros [= <- <- <-]. repeat split. constructor. }
  unfold simulate_new_game at 1. simpl.
  destruct (simulate_game fuel _ g) as [[[gm1 g1] pr1]| |] eqn:Hgame; simpl;
    try discriminate.
  destruct (simulate_games fuel n name1 two1 name2 two2 g1)
    as [[[gms g2] pr2]| |] eqn:Hrest; simpl; try discriminate.
  intros [= <- <- <-].
  destruct (IH _ _ _ _ Hrest) as (Hlen & -> & Hsum & Hall).
  destruct (simulate_game_done _ _ _ _ _ _ Hgame) as (Hc & -> & Hw).
  destruct (simulate_game_teams_and_keys _ _ _ _ _ _ Hgame)
    as (Hp1 & Hp2 & Hdom).
  simpl in *.
  split; [by rewrite Hlen|]. split; [reflexivity|].
  split; [unfold summarize_df in *; rewrite length_fmap in *; lia|].
  constructor; [|exact Hall].
  destruct Hp1 as (Hn1 & _ & _ & _ & _ & _ & _ & _ & _ & _ & Hg1).
  destruct Hp2 as (Hn2 & _ & _ & _ & _ & _ & _ & _ & _ & _ & Hg2).
  repeat split; auto.
Qed.
End Batch.

(** ** Instances of the further properties *)

(** X1 at position 70: probability 0.70, in range. *)
Lemma field_goal_probability_at_70 :
  let t := drive_state 3 70 10 (default_team "a") in
  get_field_goal_probability t = 70 # 100
  /\ 55 # 100 < get_field_goal_probability t.
Proof.
  intros t.
  destruct (field_goal_probability_by_position t)
    as (_ & H70 & _ & _ & Hrange & _).
  split.
  - apply H70; [discriminate|reflexivity].
  - apply Hrange. discriminate.
Defined.

(** X2 at the default team on its own 25: the call is a punt, and the team
    has no obligation. *)
Lemma fourth_down_call_at_own_25 :
  let t := drive_state 3 25 10 (default_team "a") in
  exists p t' g',
    fourth_down_decision (RS := mode_source) t tt = Ok (p, t', g')
    /\ Play.play_type p = Some "punt"%string
    /\ need_touchdown t = false /\ need_score t = false
    /\ field_position t < 57.
Proof.
  intros t.
  assert (Hrun : exists r,
             fourth_down_decision (RS := mode_source) t tt = Ok r)
    by (eexists; vm_compute; reflexivity).
  destruct Hrun as [[[p t'] g'] Hrun]. exists p, t', g'.
  split; [exact Hrun|].
  assert (Hty : Play.play_type p = Some "punt"%string).
  { vm_compute in Hrun. by injection Hrun as <- _ _. }
  split; [exact Hty|].
  apply (fourth_down_call_respects_obligations (RS := mode_source)
           t tt p t' g' Hrun).
  exact Hty.
Defined.

(** X3 at a touchdown run: default team on the 95, a gain of 6. *)
Lemma play_points_at_a_touchdown :
  let t := drive_state 0 95 10 (default_team "a") in
  exists p t' g' pts,
    next_play (RS := mode_source) t tt = Ok (p, t', g')
    /\ Play.points_from_play p = Some pts
    /\ score t' = (score t + pts)%Z
    /\ play_points pts.
Proof.
  intros t.
  assert (Hrun : exists r, next_play (RS := mode_source) t tt = Ok r)
    by (eexists; vm_compute; reflexivity).
  destruct Hrun as [[[p t'] g'] Hrun].
  destruct (play_points_and_score (RS := mode_source) t tt p t' g' Hrun)
    as (pts & Hp & Hs & Hset & _).
  exists p, t', g', pts. split; [exact Hrun|]. split; [exact Hp|].
  split; [exact Hs|exact Hset].
Defined.

(** X4, X5 and X7 at the first drive of the default team. *)
Lemma drive_scores_on_last_play_default_team :
  exists t' plays,
    simulate_drive (RS := mode_source) 20 25 (default_team "a") tt
    = Done (t', tt)
    /\ drive_data t' = drive_data (default_team "a") ++ [plays]
    /\ (score (default_team "a") <= score t')%Z.
Proof.
  assert (Hrun : exists t',
             simulate_drive (RS := mode_source) 20 25 (default_team "a") tt
             = Done (t', tt))
    by (eexists; vm_compute; reflexivity).
  destruct Hrun as [t' Hrun].
  destruct (drive_scores_on_last_play (RS := mode_source) _ _ _ _ _ _ Hrun)
    as (plays & Hdata & _ & Hle & _).
  exists t', plays. split; [exact Hrun|]. split; [exact Hdata|exact Hle].
Defined.

Lemma drive_keeps_the_default_team :
  exists t',
    simulate_drive (RS := mode_source) 20 25 (default_team "a") tt
    = Done (t', tt)
    /\ same_parameters (default_team "a") t'
    /\ has_completed_a_possession t' = true
    /\ length (drive_data t') = 1%nat.
Proof.
  assert (Hrun : exists t',
             simulate_drive (RS := mode_source) 20 25 (default_team "a") tt
             = Done (t', tt))
    by (eexists; vm_compute; reflexivity).
  destruct Hrun as [t' Hrun].
  destruct (drive_keeps_the_team (RS := mode_source) _ _ _ _ _ _ Hrun)
    as (Hp & _ & _ & _ & Hc & Hl & _).
  exists t'. split; [exact Hrun|]. split; [exact Hp|].
  split; [exact Hc|exact Hl].
Defined.


(** X6 at a drive started at 135. *)
Lemma drive_from_135_is_empty :
  100 <= 135
  /\ exists t',
      simulate_drive (RS := mode_source) 0 135 (default_team "b") tt
      = Done (t', tt)
      /\ drive_data t' = drive_data (default_team "b") ++ [[]]
      /\ determine_opponent_position t' = Raise IndexError.
Proof.
  split; [discriminate|].
  destruct (drive_from_the_goal_line_is_empty (RS := mode_source) 0 135
              (default_team "b") tt)
    as (t' & Hrun & Hdata & _ & _ & Herr & _); [discriminate|].
  exists t'. split; [exact Hrun|]. split; [exact Hdata|exact Herr].
Defined.

(** The start at 135 arises in a game: a team that goes for it on every
    fourth down loses 15 yards four times from its 25 and turns the ball
    over at -35; the second team's drive is empty and the game ends with
    [IndexError]. *)
Lemma game_ends_with_index_error :
  simulate_game (RS := list_source) 20
    (FootballGame_init (reckless_team "a") (default_team "b"))
    [-15; -15; -15; -15]
  = Raised IndexError.
Proof. vm_compute. reflexivity. Qed.


(** X9 at a kick from the 70 with the draw 0.95: a miss, no points. *)
Lemma field_goal_missed_from_70 :
  let t := drive_state 3 70 10 (default_team "a") in
  exists made,
    Play.made_kick (kick_field_goal (RS := list_source) t [95 # 100]).1.1
    = Some made
    /\ made = false
    /\ Play.points_from_play
         (kick_field_goal (RS := list_source) t [95 # 100]).1.1
       = Some (if made then 3 else 0)%Z.
Proof.
  intros t.
  destruct (field_goal_flag_points_and_score_agree (RS := list_source)
              t [95 # 100])
    as (made & Hm & Hiff & Hp & _).
  exists made. split; [exact Hm|]. split; [|exact Hp].
  destruct made; [|reflexivity].
  exfalso. destruct Hiff as [Hiff _]. specialize (Hiff eq_refl).
  revert Hiff. vm_compute. intros H. apply H. reflexivity.
Defined.

(** X11 and X12 at the game of two default teams. *)
Lemma drive_counts_of_the_default_game :
  exists gm' n b w l,
    simulate_game (RS := mode_source) 20
      (FootballGame_init (default_team "a") (default_team "b")) tt
    = Done (gm', tt, [])
    /\ length (drive_data (ball_first_team gm')) = (0 + 1 + n + b)%nat
    /\ length (drive_data (ball_second_team gm')) = (0 + 1 + n)%nat
    /\ (b = 0 \/ b = 1)%nat
    /\ winner gm' = Some w /\ loser gm' = Some l
    /\ (b = 1%nat -> w = ball_first).
Proof.
  assert (Hrun : exists gm',
             simulate_game (RS := mode_source) 20
               (FootballGame_init (default_team "a") (default_team "b")) tt
             = Done (gm', tt, []))
    by (eexists; vm_compute; reflexivity).
  destruct Hrun as [gm' Hrun].
  destruct (drive_counts_differ_by_at_most_one (RS := mode_source)
              _ _ _ _ _ _ Hrun)
    as (n & b & w & l & H1 & H2 & Hb & Hw & Hl & Hlead & _).
  exists gm', n, b, w, l.
  split; [exact Hrun|]. split; [exact H1|]. split; [exact H2|].
  split; [exact Hb|]. split; [exact Hw|]. split; [exact Hl|exact Hlead].
Defined.

Lemma end_state_of_the_default_game :
  exists gm',
    simulate_game (RS := mode_source) 20
      (FootballGame_init (default_team "a") (default_team "b")) tt
    = Done (gm', tt, [])
    /\ had_ball_first (ball_first_team gm') = Some true
    /\ had_ball_first (ball_second_team gm') = Some false
    /\ need_touchdown (ball_second_team gm') = false
    /\ need_score (ball_second_team gm') = false.
Proof.
  assert (Hrun : exists gm',
             simulate_game (RS := mode_source) 20
               (FootballGame_init (default_team "a") (default_team "b")) tt
             = Done (gm', tt, []))
    by (eexists; vm_compute; reflexivity).
  destruct Hrun as [gm' Hrun].
  destruct (game_end_state (RS := mode_source) _ _ _ _ _ _ Hrun)
    as (_ & _ & Hb1 & Hb2 & _ & _ & Ht2 & Hs2 & _).
  exists gm'. split; [exact Hrun|]. split; [exact Hb1|].
  split; [exact Hb2|]. split; [exact Ht2|exact Hs2].
Defined.

(** X13 at a game with a winner that has no drive, and at a fresh game. *)
Lemma update_game_data_without_drives :
  let gm := with_loser (Some ball_second)
              (with_winner (Some ball_first)
                 (FootballGame_init (default_team "a") (default_team "b")))
  in
  update_game_data gm = Raise ValueError
  /\ update_game_data
       (FootballGame_init (default_team "a") (default_team "b"))
     = Ok (FootballGame_init (default_team "a") (default_team "b")).
Proof.
  intros gm.
  split.
  - destruct (update_game_data_outcome gm) as (_ & Hno & _).
    apply (Hno ball_first); reflexivity.
  - destruct (update_game_data_outcome
                (FootballGame_init (default_team "a") (default_team "b")))
      as (Hnone & _).
    apply Hnone. reflexivity.
Defined.

(** X14 at a fresh game, 0 to 0. *)
Lemma level_scores_of_a_fresh_game :
  let gm := FootballGame_init (default_team "a") (default_team "b") in
  (set_winning_team gm).2 = ["Something wierd happened!"%string]
  /\ winner (set_winning_team gm).1 = None
  /\ loser (set_winning_team gm).1 = loser gm
  /\ update_game_data (set_winning_team gm).1 = Ok (set_winning_team gm).1
  /\ game_data (set_winning_team gm).1 = game_data gm.
Proof.
  intros gm. apply (level_scores_give_no_winner gm). reflexivity.
Defined.

(** X15 at a batch of two games of the file's two teams. *)
Lemma batch_of_two_games :
  exists games,
    simulate_games (RS := mode_source) 20 2
      "receiving_team" false "kicking_team" false tt = Done (games, tt, [])
    /\ length games = 2%nat
    /\ length (summarize_df games) = 2%nat
    /\ Forall (fun gm => dom (game_data gm) = summary_keys) games.
Proof.
  assert (Hrun : exists games,
             simulate_games (RS := mode_source) 20 2
               "receiving_team" false "kicking_team" false tt
             = Done (games, tt, []))
    by (eexists; vm_compute; reflexivity).
  destruct Hrun as [games Hrun].
  destruct (simulate_games_batch (RS := mode_source) _ _ _ _ _ _ _ _ _ _
              Hrun)
    as (Hlen & _ & Hsum & Hall).
  exists games. split; [exact Hrun|]. split; [exact Hlen|].
  split; [exact Hsum|].
  eapply Forall_impl; [exact Hall|].
  intros gm (_ & _ & _ & _ & _ & _ & Hdom). exact Hdom.
Defined.
